(** * The tool-call dispatcher of free_mcp_hasan.js

    A shallow embedding of the two request handlers of
    [src/free_mcp_hasan.js]: the client registry, the model catalog,
    provider and model selection, the single chat-completion call, the
    normalisation of its failures (lines 13-288) and the tool definitions
    (lines 291-388).

    JavaScript values are a small inductive type of the data that requests,
    responses and thrown errors carry; numbers are IEEE binary64 floats (the
    primitive floats of the kernel), strings are [string].  The upstream
    service is a function from the client and the request parameters to a
    completion; the handler returns its outcome together with the list of
    chat-completion calls it made.  What is written to the console is not
    modelled, the string conversions made for it are. *)

From Stdlib Require Import String Ascii List Bool Arith Lia PrimFloat.
Import ListNotations.
Open Scope string_scope.

Set Implicit Arguments.
Set Warnings "-register-all,-inexact-float".

(** ** JavaScript values *)

Module JS.

Inductive value : Type :=
| VUndefined
| VNull
| VBool (b : bool)
| VNum (x : float)
| VStr (s : string)
| VArr (items : list value)
| VObj (props : list (string * value)).

(** [x === y] on two numbers. *)
Definition num_eq (x y : float) : bool := PrimFloat.eqb x y.

Definition is_nan (x : float) : bool := negb (PrimFloat.eqb x x).

(** ToBoolean: the operand of [!], [&&], [||] and [?:]. *)
Definition truthy (v : value) : bool :=
  match v with
  | VUndefined | VNull => false
  | VBool b => b
  | VNum x => negb (num_eq x 0%float || is_nan x)
  | VStr s => negb (String.eqb s "")
  | VArr _ | VObj _ => true
  end.

(** [a || b] *)
Definition or_else (a b : value) : value := if truthy a then a else b.

(** The own property [k] of an object given by its property list;
    [undefined] when there is none. *)
Fixpoint own (props : list (string * value)) (k : string) : value :=
  match props with
  | [] => VUndefined
  | (k', v) :: rest => if String.eqb k k' then v else own rest k
  end.

(** The object has an own property [k]. *)
Definition has_own (props : list (string * value)) (k : string) : bool :=
  existsb (fun kv => String.eqb k (fst kv)) props.

(** What a completed statement block produced: a value, or a thrown
    value.  Anything can be thrown, [null] and [undefined] included. *)
Inductive completion (A : Type) : Type :=
| Normal (a : A)
| Throw (e : value).
Arguments Normal {A} a.
Arguments Throw {A} e.

(** A TypeError of the runtime, as far as the handler reads it: its
    [message]; it has no [response]. *)
Definition type_error (msg : string) : value := VObj [("message", VStr msg)].

Definition type_name (v : value) : string :=
  match v with VNull => "null" | _ => "undefined" end.

(** The TypeError of V8 for a property read on [undefined] or [null]. *)
Definition cannot_read (v : value) (k : string) : value :=
  type_error ("Cannot read properties of " ++ type_name v
              ++ " (reading '" ++ k ++ "')").

(** [v.k] for a property name [k] that no primitive wrapper, no array and
    no object inherits ([choices], [message], [content], [response],
    [status], and the argument names of the tools). *)
Definition get (v : value) (k : string) : completion value :=
  match v with
  | VUndefined | VNull => Throw (cannot_read v k)
  | VObj props => Normal (own props k)
  | _ => Normal VUndefined
  end.

(** [v?.k] for the same property names. *)
Definition get_opt (v : value) (k : string) : value :=
  match v with
  | VObj props => own props k
  | _ => VUndefined
  end.

(** [v[0]] *)
Definition get0 (v : value) : completion value :=
  match v with
  | VUndefined | VNull => Throw (cannot_read v "0")
  | VArr items => Normal (nth 0 items VUndefined)
  | VObj props => Normal (own props "0")
  | VStr s => Normal (match s with
                      | EmptyString => VUndefined
                      | String c _ => VStr (String c EmptyString)
                      end)
  | _ => Normal VUndefined
  end.

(** [Array.isArray(v)] *)
Definition isArray (v : value) : bool :=
  match v with VArr _ => true | _ => false end.

(** [xs.includes(v)] on an array of strings (SameValueZero). *)
Definition includes (xs : list string) (v : value) : bool :=
  match v with
  | VStr s => existsb (String.eqb s) xs
  | _ => false
  end.

(** [s.toUpperCase()] on ASCII text. *)
Definition upper_ascii (c : ascii) : ascii :=
  let n := nat_of_ascii c in
  if ((97 <=? n) && (n <=? 122))%nat then ascii_of_nat (n - 32)%nat else c.

Fixpoint toUpperCase (s : string) : string :=
  match s with
  | EmptyString => EmptyString
  | String c rest => String (upper_ascii c) (toUpperCase rest)
  end.

(** The TypeError of a string conversion that finds no usable [toString]
    and no usable [valueOf]. *)
Definition cannot_convert : value :=
  type_error "Cannot convert object to primitive value".

Section ToString.

(** [Number::toString] of the runtime. *)
Variable number_text : float -> string.

(** ToString, the conversion of a value put into a template literal.  An
    array joins the texts of its elements with commas, [undefined] and
    [null] elements giving the empty text.  An object without an own
    [toString] inherits the one of [Object.prototype]; an own [toString]
    of the data modelled here is never a function, and then neither it nor
    a [valueOf], own or inherited, yields a primitive: the conversion
    throws. *)
Fixpoint toText (v : value) : completion string :=
  match v with
  | VUndefined => Normal "undefined"
  | VNull => Normal "null"
  | VBool b => Normal (if b then "true" else "false")
  | VNum x => Normal (number_text x)
  | VStr s => Normal s
  | VArr items =>
      (fix join (xs : list value) : completion string :=
         match xs with
         | [] => Normal ""
         | x :: rest =>
             match (match x with
                    | VUndefined | VNull => Normal ""
                    | _ => toText x
                    end) with
             | Throw e => Throw e
             | Normal s =>
                 match rest with
                 | [] => Normal s
                 | _ :: _ =>
                     match join rest with
                     | Throw e => Throw e
                     | Normal t => Normal (s ++ "," ++ t)
                     end
                 end
             end
         end) items
  | VObj props =>
      if has_own props "toString" then Throw cannot_convert
      else Normal "[object Object]"
  end.

End ToString.

(** The string conversion of the value completes; the text of a number
    plays no part in that. *)
Fixpoint convertible (v : value) : bool :=
  match v with
  | VArr items => forallb convertible items
  | VObj props => negb (has_own props "toString")
  | _ => true
  end.

End JS.

Import JS.
(** ** The client registry (lines 13-39, 78-84) *)

(** What the code gives to [new OpenAI(...)]. *)
Record client : Type := mkClient {
  baseURL : option string;
  apiKey : string;
  defaultHeaders : list (string * string)
}.

(** The three entries of [process.env] the program reads; [None] is an
    unset variable. *)
Record environment : Type := mkEnv {
  HF_TOKEN : option string;
  OPENAI_API_KEY : option string;
  ANTHROPIC_API_KEY : option string
}.

(** The object [clients]: each of its three properties is set or not. *)
Record registry : Type := mkRegistry {
  huggingface : option client;
  openai : option client;
  anthropic : option client
}.

(** [if (process.env.X)]: the variable is set and not the empty string. *)
Definition env_set (x : option string) : option string :=
  match x with
  | Some s => if String.eqb s "" then None else Some s
  | None => None
  end.

Definition init_clients (env : environment) : registry :=
  {| huggingface :=
       match env_set (HF_TOKEN env) with
       | Some key => Some {| baseURL := Some "https://api-inference.huggingface.co/v1";
                             apiKey := key; defaultHeaders := [] |}
       | None => None
       end;
     openai :=
       match env_set (OPENAI_API_KEY env) with
       | Some key => Some {| baseURL := None; apiKey := key; defaultHeaders := [] |}
       | None => None
       end;
     anthropic :=
       match env_set (ANTHROPIC_API_KEY env) with
       | Some key => Some {| baseURL := Some "https://api.anthropic.com/v1";
                             apiKey := key;
                             defaultHeaders := [("anthropic-version", "2023-06-01")] |}
       | None => None
       end |}.

(** The names of the properties that every object inherits from
    [Object.prototype]; a look-up of one of them in an object literal does
    not give [undefined] but a function or object of the runtime. *)
Definition inherited_name (k : string) : bool :=
  existsb (String.eqb k)
    [ "constructor"; "toString"; "toLocaleString"; "valueOf";
      "hasOwnProperty"; "isPrototypeOf"; "propertyIsEnumerable";
      "__proto__"; "__defineGetter__"; "__defineSetter__";
      "__lookupGetter__"; "__lookupSetter__" ].

(** [clients[key]] for a key that is not an inherited name; the handler
    passes the selected provider, which is an available one. *)
Definition client_at (clients : registry) (key : string) : option client :=
  if String.eqb key "huggingface" then huggingface clients
  else if String.eqb key "openai" then openai clients
  else if String.eqb key "anthropic" then anthropic clients
  else None.

Definition present {A : Type} (x : option A) : bool :=
  match x with Some _ => true | None => false end.

(** [available.push(x)] *)
Definition push (available : list string) (x : string) : list string :=
  available ++ [x].

Definition getAvailableProviders (clients : registry) : list string :=
  let available := [] in
  let available :=
    if present (huggingface clients) then push available "huggingface" else available in
  let available :=
    if present (openai clients) then push available "openai" else available in
  let available :=
    if present (anthropic clients) then push available "anthropic" else available in
  available.

(** ** The model catalog (lines 42-61, 87-94) *)

Definition MODELS : list (string * list string) :=
  [ ("huggingface",
     [ "meta-llama/Llama-3.2-3B-Instruct";
       "microsoft/DialoGPT-medium";
       "facebook/blenderbot-400M-distill";
       "Qwen/Qwen2.5-Coder-32B-Instruct" ]);
    ("openai",
     [ "gpt-4o"; "gpt-4o-mini"; "gpt-3.5-turbo"; "o1-preview"; "o1-mini" ]);
    ("anthropic",
     [ "claude-3-5-sonnet-20241022";
       "claude-3-5-haiku-20241022";
       "claude-3-opus-20240229" ]) ].

(** [MODELS[provider]] when it is an array of model names; [None] stands
    for everything that cannot be iterated: [undefined], and what an
    inherited name gives. *)
Fixpoint models_at (table : list (string * list string)) (provider : string)
  : option (list string) :=
  match table with
  | [] => None
  | (k, ms) :: rest => if String.eqb provider k then Some ms else models_at rest provider
  end.

(** [getDefaultModel(provider)] for a provider that is not an inherited
    name ([defaults[provider]] reads the own properties of the literal);
    the handler passes available providers only. *)
Definition getDefaultModel (provider : string) : value :=
  let defaults :=
    [ ("huggingface", VStr "meta-llama/Llama-3.2-3B-Instruct");
      ("openai", VStr "gpt-4o-mini");
      ("anthropic", VStr "claude-3-5-haiku-20241022") ] in
  own defaults provider.

(** ** The handler of a tool call (lines 97-288) *)

(** The object given to [client.chat.completions.create]. *)
Record requestParams : Type := mkParams {
  model : value;
  messages : value;
  max_tokens : value;
  temperature : value
}.

(** One chat-completion call: the key under which the client was taken from
    [clients], the client and the parameters. *)
Record invocation : Type := mkInvocation {
  inv_provider : string;
  inv_client : client;
  inv_params : requestParams
}.

(** The result [{ content: [{ type: 'text', text }] }]. *)
Record ToolResponse : Type := mkResponse { text : value }.

(** A computation of the handler: how it completes, and the calls it made
    to the backends, in order. *)
Definition M (A : Type) : Type := (completion A * list invocation)%type.

Definition ret {A : Type} (a : A) : M A := (Normal a, []).

Definition throw {A : Type} (e : value) : M A := (Throw e, []).

Definition lift {A : Type} (c : completion A) : M A := (c, []).

Definition bind {A B : Type} (m : M A) (f : A -> M B) : M B :=
  match m with
  | (Normal a, calls) => let (r, calls') := f a in (r, (calls ++ calls')%list)
  | (Throw e, calls) => (Throw e, calls)
  end.

(** [try { m } catch (error) { h error }] *)
Definition try_catch {A : Type} (m : M A) (h : value -> M A) : M A :=
  match m with
  | (Normal a, calls) => (Normal a, calls)
  | (Throw e, calls) => let (r, calls') := h e in (r, (calls ++ calls')%list)
  end.

Notation "x <- m ;; k" := (bind m (fun x => k))
  (at level 61, m at next level, right associativity).

Definition newline : string := String (ascii_of_nat 10) EmptyString.

(** The string a value converts to inside a template literal or as a
    property key; only strings and [undefined] reach these places. *)
Definition str_of (v : value) : string :=
  match v with VStr s => s | _ => "undefined" end.

(** [xs[0]] on an array of strings. *)
Definition first (xs : list string) : value :=
  match xs with [] => VUndefined | x :: _ => VStr x end.

(** [const { a, b, ... } = args]: the properties of [args], or a TypeError
    naming the first of them when [args] is [undefined] or [null]. *)
Definition destructure (args : value) (first_name : string)
  : completion (string -> value) :=
  match args with
  | VUndefined | VNull =>
      Throw (type_error ("Cannot destructure property '" ++ first_name
                         ++ "' of 'args' as it is " ++ type_name args ++ "."))
  | _ => Normal (get_opt args)
  end.

(** [v === n] for a number literal [n]. *)
Definition is_number (v : value) (n : float) : bool :=
  match v with VNum x => num_eq x n | _ => false end.

(** [model === getDefaultModel(provider)] for a string [model]. *)
Definition is_string (v : value) (s : string) : bool :=
  match v with VStr d => String.eqb s d | _ => false end.

Definition no_providers_help : string :=
  "No AI providers configured. Please set one of the following environment variables:"
  ++ newline ++ "- HF_TOKEN (for Hugging Face)"
  ++ newline ++ "- OPENAI_API_KEY (for OpenAI)"
  ++ newline ++ "- ANTHROPIC_API_KEY (for Anthropic)"
  ++ newline
  ++ newline ++ "Then restart the server.".

(** Lines 129-131 and 234-236. *)
Definition selectProvider (provider : value) (availableProviders : list string)
  : string :=
  str_of (if truthy provider && includes availableProviders provider
          then provider
          else first availableProviders).

(** Lines 133 and 238. *)
Definition selectModel (model : value) (selectedProvider : string) : value :=
  or_else model (getDefaultModel selectedProvider).

(** Lines 150 and 252:
    [response.choices[0]?.message?.content || 'No response generated']. *)
Definition generatedText (response : value) : completion value :=
  match get response "choices" with
  | Throw e => Throw e
  | Normal choices =>
      match get0 choices with
      | Throw e => Throw e
      | Normal choice =>
          Normal (or_else (get_opt (get_opt choice "message") "content")
                          (VStr "No response generated"))
      end
  end.

(** The two [catch] blocks, lines 162-176 and 264-278: the text they
    return, or what they throw.  Reading [error.response] throws when the
    caught value is [undefined] or [null]; putting a message that is not a
    string into the template literal converts it, which can throw. *)
Definition errorText (number_text : float -> string)
  (fallback selectedProvider : string) (error : value) : completion string :=
  let errorMessage := fallback in
  match get error "response" with
  | Throw e => Throw e
  | Normal response =>
      if is_number (get_opt response "status") 401%float then
        Normal ("Error: " ++ "Authentication failed for " ++ selectedProvider
                ++ ". Please check your API key.")
      else if is_number (get_opt response "status") 429%float then
        Normal ("Error: " ++ "Rate limit exceeded for " ++ selectedProvider
                ++ ". Please try again later.")
      else if truthy (get_opt error "message") then
        match toText number_text (get_opt error "message") with
        | Throw e => Throw e
        | Normal errorMessage => Normal ("Error: " ++ errorMessage)
        end
      else Normal ("Error: " ++ errorMessage)
  end.

(** The inner loop of [list_models], lines 196-199. *)
Definition render_models (provider : string) (models : list string)
  (modelList : string) : string :=
  fold_left
    (fun modelList model =>
       let isDefault := is_string (getDefaultModel provider) model in
       modelList ++ "- " ++ model
       ++ (if isDefault then " (default)" else "") ++ newline)
    models modelList.

(** The outer loop, lines 194-201; [MODELS[provider]] has to be there to
    be iterated. *)
Fixpoint render_providers (providers : list string) (modelList : string)
  : completion string :=
  match providers with
  | [] => Normal modelList
  | provider :: rest =>
      let modelList :=
        modelList ++ "**" ++ toUpperCase provider ++ ":**" ++ newline in
      match models_at MODELS provider with
      | None => Throw (type_error "MODELS[provider] is not iterable")
      | Some models =>
          let modelList := render_models provider models modelList in
          render_providers rest (modelList ++ newline)
      end
  end.

Section Handler.

(** The registry built at startup. *)
Variable clients : registry.

(** The upstream services: what [client.chat.completions.create(params)]
    resolves to, or the value it rejects with. *)
Variable backend : client -> requestParams -> completion value.

(** [Number::toString] of the runtime. *)
Variable number_text : float -> string.

(** [console.log] of a template literal that holds the selected model
    (lines 137 and 242): the model is converted to a string, which can
    throw; the text itself goes to the console. *)
Definition log_model (selectedModel : value) : M unit :=
  match toText number_text selectedModel with
  | Throw e => throw e
  | Normal _ => ret tt
  end.

(** [await clients[key].chat.completions.create(params)] *)
Definition create (key : string) (params : requestParams) : M value :=
  match client_at clients key with
  | None => throw (cannot_read VUndefined "chat")
  | Some c => (backend c params, [mkInvocation key c params])
  end.

(** Lines 100-178. *)
Definition generate_text (args : value) : M ToolResponse :=
  a <- lift (destructure args "prompt") ;;
  let prompt := a "prompt" in
  let provider := a "provider" in
  let model := a "model" in
  let max_tokens := a "max_tokens" in
  let temperature := a "temperature" in
  if negb (truthy prompt) then
    ret (mkResponse (VStr "Error: Prompt is required"))
  else
    let availableProviders := getAvailableProviders clients in
    if Nat.eqb (List.length availableProviders) 0 then
      ret (mkResponse (VStr no_providers_help))
    else
      let selectedProvider := selectProvider provider availableProviders in
      let selectedModel := selectModel model selectedProvider in
      try_catch
        (_ <- log_model selectedModel ;;
         let requestParams :=
           {| model := selectedModel;
              messages := VArr [VObj [("role", VStr "user"); ("content", prompt)]];
              max_tokens := or_else max_tokens (VNum 1024%float);
              temperature := or_else temperature (VNum 0.7%float) |} in
         response <- create selectedProvider requestParams ;;
         generatedText <- lift (generatedText response) ;;
         ret (mkResponse generatedText))
        (fun error =>
           errorMessage <-
             lift (errorText number_text "Failed to generate text" selectedProvider
                             error) ;;
           ret (mkResponse (VStr errorMessage))).

(** Lines 180-209. *)
Definition list_models : M ToolResponse :=
  let availableProviders := getAvailableProviders clients in
  if Nat.eqb (List.length availableProviders) 0 then
    ret (mkResponse (VStr "No AI providers configured."))
  else
    let modelList := "Available AI Models:" ++ newline ++ newline in
    modelList <- lift (render_providers availableProviders modelList) ;;
    ret (mkResponse (VStr modelList)).

(** [messages.length === 0], read after [Array.isArray(messages)] held. *)
Definition empty_array (v : value) : bool :=
  match v with VArr [] => true | _ => false end.

(** Lines 211-280. *)
Definition chat_conversation (args : value) : M ToolResponse :=
  a <- lift (destructure args "messages") ;;
  let messages := a "messages" in
  let provider := a "provider" in
  let model := a "model" in
  let max_tokens := a "max_tokens" in
  let temperature := a "temperature" in
  if negb (truthy messages) || negb (isArray messages) || empty_array messages then
    ret (mkResponse (VStr "Error: Messages array is required"))
  else
    let availableProviders := getAvailableProviders clients in
    if Nat.eqb (List.length availableProviders) 0 then
      ret (mkResponse (VStr "No AI providers configured."))
    else
      let selectedProvider := selectProvider provider availableProviders in
      let selectedModel := selectModel model selectedProvider in
      try_catch
        (_ <- log_model selectedModel ;;
         let requestParams :=
           {| model := selectedModel;
              messages := messages;
              max_tokens := or_else max_tokens (VNum 1024%float);
              temperature := or_else temperature (VNum 0.7%float) |} in
         response <- create selectedProvider requestParams ;;
         generatedText <- lift (generatedText response) ;;
         ret (mkResponse generatedText))
        (fun error =>
           errorMessage <-
             lift (errorText number_text "Failed to process chat" selectedProvider
                             error) ;;
           ret (mkResponse (VStr errorMessage))).

(** The handler registered for [CallToolRequestSchema], applied to
    [request.params.name] and [request.params.arguments]. *)
Definition handleToolCall (name : string) (args : value) : M ToolResponse :=
  if String.eqb name "generate_text" then generate_text args
  else if String.eqb name "list_models" then list_models
  else if String.eqb name "chat_conversation" then chat_conversation args
  else ret (mkResponse (VStr ("Unknown tool: " ++ name))).

End Handler.

(** The text of a call that returned. *)
Definition text_of (r : M ToolResponse) : option value :=
  match fst r with Normal resp => Some (text resp) | Throw _ => None end.

(** The chat-completion calls of a run. *)
Definition calls_of (r : M ToolResponse) : list invocation := snd r.

(** [text.includes(part)] *)
Fixpoint contains (text part : string) : bool :=
  String.prefix part text
  || match text with
     | EmptyString => false
     | String _ rest => contains rest part
     end.

(** [text.split('\n')] *)
Fixpoint split_lines (text : string) (line : string) : list string :=
  match text with
  | EmptyString => [line]
  | String c rest =>
      if Ascii.eqb c (ascii_of_nat 10) then line :: split_lines rest ""
      else split_lines rest (line ++ String c EmptyString)
  end.

Definition lines (text : string) : list string := split_lines text "".

(** How many of the lines are [line]. *)
Definition occurrences (line : string) (ls : list string) : nat :=
  List.length (filter (String.eqb line) ls).

(** ** Vocabulary of the statements *)

(** Nothing was configured at startup. *)
Definition no_clients : registry :=
  {| huggingface := None; openai := None; anthropic := None |}.

(** The text names the three credential slots. *)
Definition enumerates_slots (t : string) : bool :=
  contains t "HF_TOKEN" && contains t "OPENAI_API_KEY"
  && contains t "ANTHROPIC_API_KEY".

(** The input of a call of one of the two generation tools passes the
    check of the tool. *)
Definition passes_check (name : string) (props : list (string * value))
  : Prop :=
  (name = "generate_text" /\ truthy (own props "prompt") = true)
  \/ (name = "chat_conversation"
      /\ exists m ms, own props "messages" = VArr (m :: ms)).

(** The provider a call selects. *)
Definition selected (clients : registry) (props : list (string * value))
  : string :=
  selectProvider (own props "provider") (getAvailableProviders clients).

(** The model a call selects. *)
Definition selected_model (clients : registry)
  (props : list (string * value)) : value :=
  selectModel (own props "model") (selected clients props).

(** A call of one of the two generation tools gets as far as the
    chat-completion call: some provider is available, its input passes the
    check of the tool, and the string conversion of the selected model made
    for the log line completes. *)
Definition reaches_invocation (clients : registry) (name : string)
  (props : list (string * value)) : Prop :=
  getAvailableProviders clients <> []
  /\ passes_check name props
  /\ convertible (selected_model clients props) = true.

(** The fallback error message of a tool. *)
Definition fallback_of (name : string) : string :=
  if String.eqb name "generate_text" then "Failed to generate text"
  else "Failed to process chat".

(** The status the [catch] block reads, [error.response?.status], of a
    caught value that is not [undefined] or [null]. *)
Definition status_of (error : value) : value :=
  get_opt (get_opt error "response") "status".

(** The [catch] block itself throws on the caught value: the value is
    [undefined] or [null], or it is not classified by its status and has a
    truthy message whose string conversion throws. *)
Definition catch_throws (error : value) : Prop :=
  error = VUndefined \/ error = VNull
  \/ (is_number (status_of error) 401%float = false
      /\ is_number (status_of error) 429%float = false
      /\ truthy (get_opt error "message") = true
      /\ convertible (get_opt error "message") = false).

(** The value of [response.choices[0]?.message?.content], when reading it
    does not throw. *)
Definition content_is (response content : value) : Prop :=
  exists choices choice,
    get response "choices" = Normal choices
    /\ get0 choices = Normal choice
    /\ get_opt (get_opt choice "message") "content" = content.

(** A response of the documented shape, with the given first choice. *)
Definition response_with (choice : value) : value :=
  VObj [("id", VStr "chatcmpl-1"); ("choices", VArr [choice])].

Definition choice_with (content : value) : value :=
  VObj [("index", VNum 0%float);
        ("message", VObj [("role", VStr "assistant"); ("content", content)])].

(** What a generation tool passes as [messages]. *)
Definition sent_messages (name : string) (props : list (string * value))
  : value :=
  if String.eqb name "generate_text" then
    VArr [VObj [("role", VStr "user"); ("content", own props "prompt")]]
  else own props "messages".

(** What the [catch] block of a generation tool completes with. *)
Definition caught (number_text : float -> string)
  (name selectedProvider : string) (error : value) : completion ToolResponse :=
  match errorText number_text (fallback_of name) selectedProvider error with
  | Normal errorMessage => Normal (mkResponse (VStr errorMessage))
  | Throw e => Throw e
  end.

(** What a generation tool completes with after its chat-completion call
    produced [outcome]. *)
Definition after_call (number_text : float -> string)
  (name selectedProvider : string) (outcome : completion value)
  : completion ToolResponse :=
  match outcome with
  | Normal response =>
      match generatedText response with
      | Normal t => Normal (mkResponse t)
      | Throw e => caught number_text name selectedProvider e
      end
  | Throw e => caught number_text name selectedProvider e
  end.

(** The block of one provider in the text of [list_models]. *)
Definition model_line (provider model : string) : string :=
  "- " ++ model
  ++ (if is_string (getDefaultModel provider) model then " (default)" else "")
  ++ newline.

Definition provider_block (provider : string) : string :=
  "**" ++ toUpperCase provider ++ ":**" ++ newline
  ++ String.concat "" (map (model_line provider)
                           (match models_at MODELS provider with
                            | Some ms => ms
                            | None => []
                            end))
  ++ newline.

(** The lines of a text that carry the annotation of a default model. *)
Definition annotated_lines (t : string) : list string :=
  filter (fun line => contains line "(default)") (lines t).

(** Registries and backends used to run the handler on concrete calls. *)
Definition hf_client : client :=
  {| baseURL := Some "https://api-inference.huggingface.co/v1";
     apiKey := "hf_key"; defaultHeaders := [] |}.

Definition openai_client : client :=
  {| baseURL := None; apiKey := "sk-key"; defaultHeaders := [] |}.

Definition hf_only : registry :=
  {| huggingface := Some hf_client; openai := None; anthropic := None |}.

Definition hf_and_openai : registry :=
  {| huggingface := Some hf_client; openai := Some openai_client;
     anthropic := None |}.

Definition answering (content : value) : client -> requestParams -> completion value :=
  fun _ _ => Normal (response_with (choice_with content)).

Definition failing (error : value) : client -> requestParams -> completion value :=
  fun _ _ => Throw error.

(** An error that carries the status of the reply at [response.status]. *)
Definition http_error (status : float) (message : string) : value :=
  VObj [("response", VObj [("status", VNum status)]);
        ("message", VStr message)].

(** An error that carries the status on itself and has no [response], as
    the errors of the client made by [new OpenAI(...)] do. *)
Definition api_error (status : float) (message : string) : value :=
  VObj [("status", VNum status); ("message", VStr message)].

(** A formatter of numbers for runs in which no number is converted to
    text. *)
Definition no_number : float -> string := fun _ => "NaN".

(** ** The tool definitions (lines 291-388) *)

(** The schema of the [provider] argument; the source writes it out in both
    generation tools. *)
Definition provider_schema : value :=
  VObj [("type", VStr "string");
        ("description", VStr "AI provider to use (huggingface, openai, anthropic)");
        ("enum", VArr [VStr "huggingface"; VStr "openai"; VStr "anthropic"])].

Definition model_schema : value :=
  VObj [("type", VStr "string");
        ("description",
         VStr "Specific model to use (optional, will use provider default)")].

Definition max_tokens_schema : value :=
  VObj [("type", VStr "number");
        ("description", VStr "Maximum tokens to generate (default: 1024)");
        ("default", VNum 1024%float)].

Definition temperature_schema : value :=
  VObj [("type", VStr "number");
        ("description",
         VStr "Temperature for text generation (0.0-2.0, default: 0.7)");
        ("default", VNum 0.7%float);
        ("minimum", VNum 0.0%float);
        ("maximum", VNum 2.0%float)].

(** The result of the handler registered for [ListToolsRequestSchema]. *)
Definition listTools : value :=
  VObj [("tools", VArr [
    VObj [("name", VStr "generate_text");
          ("description",
           VStr "Generate text using AI models from various providers (Hugging Face, OpenAI, Anthropic)");
          ("inputSchema",
           VObj [("type", VStr "object");
                 ("properties",
                  VObj [("prompt",
                         VObj [("type", VStr "string");
                               ("description",
                                VStr "The prompt to send to the AI model")]);
                        ("provider", provider_schema);
                        ("model", model_schema);
                        ("max_tokens", max_tokens_schema);
                        ("temperature", temperature_schema)]);
                 ("required", VArr [VStr "prompt"])])];
    VObj [("name", VStr "list_models");
          ("description",
           VStr "List all available AI models from configured providers");
          ("inputSchema",
           VObj [("type", VStr "object");
                 ("properties", VObj []);
                 ("additionalProperties", VBool false)])];
    VObj [("name", VStr "chat_conversation");
          ("description", VStr "Have a multi-turn conversation with AI models");
          ("inputSchema",
           VObj [("type", VStr "object");
                 ("properties",
                  VObj [("messages",
                         VObj [("type", VStr "array");
                               ("description",
                                VStr "Array of chat messages with role and content");
                               ("items",
                                VObj [("type", VStr "object");
                                      ("properties",
                                       VObj [("role",
                                              VObj [("type", VStr "string");
                                                    ("enum",
                                                     VArr [VStr "system";
                                                           VStr "user";
                                                           VStr "assistant"])]);
                                             ("content",
                                              VObj [("type", VStr "string")])]);
                                      ("required",
                                       VArr [VStr "role"; VStr "content"])])]);
                        ("provider", provider_schema);
                        ("model", model_schema);
                        ("max_tokens", max_tokens_schema);
                        ("temperature", temperature_schema)]);
                 ("required", VArr [VStr "messages"])])]])].

(** ** Reading the tool definitions *)

(** The elements of an array value. *)
Definition elements (v : value) : list value :=
  match v with VArr items => items | _ => [] end.

(** The strings among the elements of an array value. *)
Definition strings_of (v : value) : list string :=
  flat_map (fun x => match x with VStr s => [s] | _ => [] end) (elements v).

(** The names of the tools the server advertises. *)
Definition advertised_names : list string :=
  strings_of (VArr (map (fun t => get_opt t "name")
                        (elements (get_opt listTools "tools")))).

(** The input schema advertised for the tool [name]. *)
Definition input_schema (name : string) : value :=
  match filter (fun t => is_string (get_opt t "name") name)
               (elements (get_opt listTools "tools")) with
  | t :: _ => get_opt t "inputSchema"
  | [] => VUndefined
  end.

(** The schema advertised for the argument [field] of the tool [name]. *)
Definition argument_schema (name field : string) : value :=
  get_opt (get_opt (input_schema name) "properties") field.

(** The arguments the schema of the tool [name] requires. *)
Definition required_arguments (name : string) : list string :=
  strings_of (get_opt (input_schema name) "required").

(** ** More vocabulary *)

(** [args] is [undefined] or [null]. *)
Definition nullish (args : value) : Prop := args = VUndefined \/ args = VNull.

(** The tools that read their arguments. *)
Definition reads_arguments (name : string) : Prop :=
  name = "generate_text" \/ name = "chat_conversation".

(** The environment variable that holds the credential of a provider. *)
Definition credential (env : environment) (provider : string) : option string :=
  if String.eqb provider "huggingface" then HF_TOKEN env
  else if String.eqb provider "openai" then OPENAI_API_KEY env
  else if String.eqb provider "anthropic" then ANTHROPIC_API_KEY env
  else None.

(** An environment with two credentials, used to run the handler. *)
Definition two_keys : environment :=
  {| HF_TOKEN := Some "hf_secret"; OPENAI_API_KEY := None;
     ANTHROPIC_API_KEY := Some "sk-ant-secret" |}.

Definition user_message (content : string) : value :=
  VObj [("role", VStr "user"); ("content", VStr content)].

(** ** Sanity checks of the model *)

Example truthy_zero : truthy (VNum 0%float) = false.
Proof. reflexivity. Qed.

Example truthy_neg_zero : truthy (VNum (-0)%float) = false.
Proof. reflexivity. Qed.

Example truthy_point7 : truthy (VNum 0.7%float) = true.
Proof. reflexivity. Qed.

Example upper_openai : toUpperCase "openai" = "OPENAI".
Proof. reflexivity. Qed.

Example available_all :
  getAvailableProviders
    (init_clients {| HF_TOKEN := Some "hf_x"; OPENAI_API_KEY := Some "sk-x";
                     ANTHROPIC_API_KEY := Some "sk-ant" |})
  = ["huggingface"; "openai"; "anthropic"].
Proof. reflexivity. Qed.

Example available_empty_token :
  getAvailableProviders
    (init_clients {| HF_TOKEN := Some ""; OPENAI_API_KEY := None;
                     ANTHROPIC_API_KEY := Some "sk-ant" |})
  = ["anthropic"].
Proof. reflexivity. Qed.

Example default_of_unknown : getDefaultModel "mistral" = VUndefined.
Proof. reflexivity. Qed.

Example unknown_tool :
  handleToolCall hf_only (answering (VStr "hi")) no_number "summarize" (VObj [])
  = (Normal (mkResponse (VStr "Unknown tool: summarize")), []).
Proof. reflexivity. Qed.

Example generate_text_answers :
  handleToolCall hf_only (answering (VStr "hello")) no_number "generate_text"
    (VObj [("prompt", VStr "hi")])
  = (Normal (mkResponse (VStr "hello")),
     [ {| inv_provider := "huggingface"; inv_client := hf_client;
          inv_params :=
            {| model := VStr "meta-llama/Llama-3.2-3B-Instruct";
               messages := VArr [VObj [("role", VStr "user"); ("content", VStr "hi")]];
               max_tokens := VNum 1024%float;
               temperature := VNum 0.7%float |} |} ]).
Proof. reflexivity. Qed.

(** A response without [choices] makes the read of [choices[0]] throw inside
    the [try]; the [catch] turns the TypeError into a text. *)
Example response_without_choices :
  handleToolCall hf_only (fun _ _ => Normal (VObj [])) no_number "chat_conversation"
    (VObj [("messages", VArr [VObj [("role", VStr "user"); ("content", VStr "hi")]])])
  = (Normal (mkResponse
       (VStr "Error: Cannot read properties of undefined (reading '0')")),
     [ {| inv_provider := "huggingface"; inv_client := hf_client;
          inv_params :=
            {| model := VStr "meta-llama/Llama-3.2-3B-Instruct";
               messages := VArr [VObj [("role", VStr "user"); ("content", VStr "hi")]];
               max_tokens := VNum 1024%float;
               temperature := VNum 0.7%float |} |} ]).
Proof. reflexivity. Qed.


(** A model whose string conversion throws is not sent: the log line
    throws inside the [try] and the [catch] returns the text of the
    TypeError. *)
Example model_not_convertible :
  handleToolCall hf_only (answering (VStr "hello")) no_number "generate_text"
    (VObj [("prompt", VStr "hi"); ("model", VObj [("toString", VNum 1%float)])])
  = (Normal (mkResponse
       (VStr "Error: Cannot convert object to primitive value")), []).
Proof. reflexivity. Qed.

(** A backend that rejects with [null] makes the [catch] block throw. *)
Example rejection_with_null :
  handleToolCall hf_only (failing VNull) no_number "generate_text"
    (VObj [("prompt", VStr "hi")])
  = (Throw (cannot_read VNull "response"),
     [ {| inv_provider := "huggingface"; inv_client := hf_client;
          inv_params :=
            {| model := VStr "meta-llama/Llama-3.2-3B-Instruct";
               messages := VArr [VObj [("role", VStr "user"); ("content", VStr "hi")]];
               max_tokens := VNum 1024%float;
               temperature := VNum 0.7%float |} |} ]).
Proof. reflexivity. Qed.

Example text_of_array :
  toText no_number (VArr [VStr "a"; VNull; VArr [VBool true; VStr "b"]])
  = Normal "a,,true,b".
Proof. reflexivity. Qed.

(** ** Lemmas on the helpers *)

Lemma own_missing (props : list (string * value)) (k : string) :
  ~ In k (map fst props) -> own props k = VUndefined.
Proof.
  induction props as [| [k' v] rest IH]; simpl; intros Hnot.
  - reflexivity.
  - destruct (String.eqb k k') eqn:E.
    + apply String.eqb_eq in E. subst k'. exfalso. apply Hnot. now left.
    + apply IH. intros Hin. apply Hnot. now right.
Qed.

Lemma includes_In (xs : list string) (s : string) :
  includes xs (VStr s) = true <-> In s xs.
Proof.
  simpl. rewrite existsb_exists. split.
  - intros [x [Hin Heq]]. apply String.eqb_eq in Heq. now subst.
  - intros Hin. exists s. split; [assumption | apply String.eqb_refl].
Qed.

Lemma includes_string (xs : list string) (v : value) :
  includes xs v = true -> exists s, v = VStr s /\ In s xs.
Proof.
  destruct v; simpl; try discriminate. intros H.
  exists s. split; [reflexivity | now apply includes_In].
Qed.

Lemma prefix_app (s rest : string) : String.prefix s (s ++ rest) = true.
Proof.
  induction s as [| c s IH]; simpl.
  - now destruct rest.
  - destruct (ascii_dec c c) as [_ | Hneq]; [exact IH | now elim Hneq].
Qed.

Lemma contains_prefix (text part : string) :
  String.prefix part text = true -> contains text part = true.
Proof. intros H. destruct text; simpl in *; rewrite H; reflexivity. Qed.

Lemma contains_app (before part rest : string) :
  contains (before ++ part ++ rest) part = true.
Proof.
  induction before as [| c before IH]; simpl.
  - apply contains_prefix, prefix_app.
  - rewrite IH. apply orb_true_r.
Qed.

(** The available providers are the configured ones, in the fixed order of
    the three checks. *)
Lemma getAvailableProviders_filter (clients : registry) :
  getAvailableProviders clients
  = filter (fun p => present (client_at clients p))
           ["huggingface"; "openai"; "anthropic"].
Proof.
  unfold getAvailableProviders, push.
  destruct clients as [[h|] [o|] [a|]]; reflexivity.
Qed.

Lemma available_client (clients : registry) (p : string) :
  In p (getAvailableProviders clients) -> exists c, client_at clients p = Some c.
Proof.
  rewrite getAvailableProviders_filter, filter_In. intros [_ H].
  destruct (client_at clients p) as [c|]; [now exists c | discriminate].
Qed.

Lemma no_credentials (env : environment) :
  getAvailableProviders (init_clients env) = []
  <-> env_set (HF_TOKEN env) = None /\ env_set (OPENAI_API_KEY env) = None
      /\ env_set (ANTHROPIC_API_KEY env) = None.
Proof.
  unfold getAvailableProviders, init_clients, push; simpl.
  destruct (env_set (HF_TOKEN env)), (env_set (OPENAI_API_KEY env)),
    (env_set (ANTHROPIC_API_KEY env)); simpl; split;
    try discriminate; try (intros [? [? ?]]; discriminate); auto.
Qed.

Lemma selectProvider_requested (s : string) (available : list string) :
  In s available -> s <> "" -> selectProvider (VStr s) available = s.
Proof.
  intros Hin Hne. unfold selectProvider.
  assert (Ht : truthy (VStr s) = true).
  { simpl. destruct (String.eqb s "") eqn:E; [| reflexivity].
    apply String.eqb_eq in E. contradiction. }
  rewrite Ht. apply includes_In in Hin. rewrite Hin. reflexivity.
Qed.

Lemma selectProvider_first (v : value) (available : list string) :
  includes available v = false ->
  selectProvider v available = str_of (first available).
Proof.
  intros H. unfold selectProvider. rewrite H, andb_false_r. reflexivity.
Qed.

Lemma selectProvider_available (v : value) (available : list string) :
  available <> [] -> In (selectProvider v available) available.
Proof.
  intros Hne. unfold selectProvider.
  destruct (truthy v && includes available v) eqn:E.
  - apply andb_true_iff in E. destruct E as [_ E].
    apply includes_string in E. destruct E as [s [-> Hin]]. exact Hin.
  - destruct available as [| x rest]; [contradiction | now left].
Qed.

Lemma available_nonempty_string (clients : registry) (p : string) :
  In p (getAvailableProviders clients) -> p <> "".
Proof.
  rewrite getAvailableProviders_filter, filter_In. simpl.
  intros [[<- | [<- | [<- | []]]] _]; discriminate.
Qed.


(** ** String conversion *)

(** Induction on values, with the hypothesis for every element of an
    array. *)
Lemma value_induction (P : value -> Prop) :
  P VUndefined -> P VNull -> (forall b, P (VBool b)) ->
  (forall x, P (VNum x)) -> (forall s, P (VStr s)) ->
  (forall items, Forall P items -> P (VArr items)) ->
  (forall props, P (VObj props)) ->
  forall v, P v.
Proof.
  intros Hu Hn Hb Hx Hs Ha Ho.
  fix IH 1. intros [| | b | x | s | items | props];
    [exact Hu | exact Hn | apply Hb | apply Hx | apply Hs | | apply Ho].
  apply Ha.
  exact ((fix all (l : list value) : Forall P l :=
            match l with
            | [] => Forall_nil P
            | v :: rest => Forall_cons v (IH v) (all rest)
            end) items).
Qed.

(** The conversion completes exactly on the convertible values, and throws
    the same TypeError on all others. *)
Lemma toText_convertible (number_text : float -> string) (v : value) :
  (convertible v = true -> exists s, toText number_text v = Normal s)
  /\ (convertible v = false -> toText number_text v = Throw cannot_convert).
Proof.
  induction v as [| | b | x | s | items IH | props] using value_induction;
    try (split; [intros _; eexists; reflexivity | discriminate]).
  - induction IH as [| v rest [Hyes Hno] _ IHrest].
    + split; [intros _; eexists; reflexivity | discriminate].
    + assert (Helem : (convertible v = true ->
                       exists s, match v with
                                 | VUndefined | VNull => Normal ""
                                 | _ => toText number_text v
                                 end = Normal s)
                      /\ (convertible v = false ->
                          match v with
                          | VUndefined | VNull => Normal ""
                          | _ => toText number_text v
                          end = Throw cannot_convert)).
      { destruct v; try (split; [assumption | assumption]);
          (split; [intros _; eexists; reflexivity | discriminate]). }
      clear Hyes Hno. destruct Helem as [Hyes Hno].
      destruct IHrest as [Ryes Rno].
      cbn [convertible forallb] in *. fold convertible in *.
      cbn [toText] in *.
      split.
      * intros H. apply andb_true_iff in H. destruct H as [Hv Hrest].
        destruct (Hyes Hv) as [s Hs]. rewrite Hs.
        destruct rest as [| w rest']; [now eexists |].
        destruct (Ryes Hrest) as [t Ht]. rewrite Ht. now eexists.
      * intros H. apply andb_false_iff in H.
        destruct (convertible v) eqn:Ev.
        -- destruct (Hyes eq_refl) as [s Hs]. rewrite Hs.
           destruct H as [H | H]; [discriminate |].
           destruct rest as [| w rest']; [discriminate H |].
           rewrite (Rno H). reflexivity.
        -- rewrite (Hno eq_refl). reflexivity.
  - cbn [convertible toText]. destruct (has_own props "toString").
    + split; [discriminate | reflexivity].
    + split; [intros _; eexists; reflexivity | discriminate].
Qed.

(** The log line of a convertible model does nothing that can be
    observed; on any other model it throws. *)
Lemma log_model_convertible (number_text : float -> string) (v : value) :
  convertible v = true -> log_model number_text v = ret tt.
Proof.
  intros H. unfold log_model.
  destruct (proj1 (toText_convertible number_text v) H) as [s ->]. reflexivity.
Qed.

Lemma log_model_throws (number_text : float -> string) (v : value) :
  convertible v = false -> log_model number_text v = throw cannot_convert.
Proof.
  intros H. unfold log_model.
  rewrite (proj2 (toText_convertible number_text v) H). reflexivity.
Qed.

(** ** What the catch block does *)

(** A TypeError of the runtime is turned into a text. *)
Lemma caught_type_error (number_text : float -> string)
  (name p msg : string) :
  msg <> "" ->
  caught number_text name p (type_error msg)
  = Normal (mkResponse (VStr ("Error: " ++ msg))).
Proof.
  intros Hne. unfold caught, errorText, type_error. simpl.
  destruct (String.eqb msg "") eqn:E; [| reflexivity].
  apply String.eqb_eq in E. contradiction.
Qed.

Lemma generatedText_throws (response e : value) :
  generatedText response = Throw e ->
  exists msg, e = type_error msg /\ msg <> "".
Proof.
  unfold generatedText.
  destruct response as [| | b | x | s | items | props]; simpl;
    try (intros H; injection H as <-; eexists; split;
         [reflexivity | discriminate]).
  destruct (own props "choices") as [| | b | x | s | items | ps]; simpl;
    try discriminate;
    try (intros H; injection H as <-; eexists; split;
         [reflexivity | discriminate]).
Qed.

(** The text the catch block returns, when it returns, starts with
    'Error: '. *)
Lemma caught_text (number_text : float -> string)
  (name p : string) (e : value) (r : ToolResponse) :
  caught number_text name p e = Normal r ->
  exists t, text r = VStr ("Error: " ++ t).
Proof.
  unfold caught, errorText.
  destruct (get e "response") as [response |]; [| discriminate].
  destruct (is_number (get_opt response "status") 401%float);
    [intros H; injection H as <-; now eexists |].
  destruct (is_number (get_opt response "status") 429%float);
    [intros H; injection H as <-; now eexists |].
  destruct (truthy (get_opt e "message")).
  - destruct (toText number_text (get_opt e "message")); [| discriminate].
    intros H; injection H as <-; now eexists.
  - intros H; injection H as <-; now eexists.
Qed.

(** The catch block throws exactly on the values of [catch_throws]. *)
Lemma caught_throws_iff (number_text : float -> string)
  (name p : string) (e : value) :
  (exists e', caught number_text name p e = Throw e') <-> catch_throws e.
Proof.
  unfold caught, errorText, catch_throws, status_of.
  destruct e as [| | b | x | s | items | props]; simpl;
    try (split; [intros _; tauto | intros _; eexists; reflexivity]);
    try (split; [intros [e' H]; discriminate
                | intros [H | [H | [_ [_ [H _]]]]]; discriminate]).
  destruct (is_number (get_opt (own props "response") "status") 401%float);
    [split; [intros [e' H]; discriminate
            | intros [H | [H | [H _]]]; discriminate] |].
  destruct (is_number (get_opt (own props "response") "status") 429%float);
    [split; [intros [e' H]; discriminate
            | intros [H | [H | [_ [H _]]]]; discriminate] |].
  destruct (truthy (own props "message")) eqn:Hm;
    [| split; [intros [e' H]; discriminate
              | intros [H | [H | [_ [_ [H _]]]]]; discriminate]].
  destruct (convertible (own props "message")) eqn:Hc.
  - destruct (proj1 (toText_convertible number_text _) Hc) as [t ->].
    split; [intros [e' H]; discriminate
           | intros [H | [H | [_ [_ [_ H]]]]]; discriminate].
  - rewrite (proj2 (toText_convertible number_text _) Hc).
    split; [intros _; right; right; auto | intros _; eexists; reflexivity].
Qed.

(** ** One run of a generation tool *)

(** A call that reaches the invocation step makes exactly one
    chat-completion call, on the client of the selected provider, and
    completes with what the rest of the [try] or the [catch] makes of its
    outcome. *)
Lemma generation_run (clients : registry)
  (backend : client -> requestParams -> completion value)
  (number_text : float -> string)
  (name : string) (props : list (string * value)) :
  reaches_invocation clients name props ->
  exists c params,
    client_at clients (selected clients props) = Some c
    /\ model params = selectModel (own props "model") (selected clients props)
    /\ messages params = sent_messages name props
    /\ max_tokens params = or_else (own props "max_tokens") (VNum 1024%float)
    /\ temperature params = or_else (own props "temperature") (VNum 0.7%float)
    /\ handleToolCall clients backend number_text name (VObj props)
       = (after_call number_text name (selected clients props)
                     (backend c params),
          [mkInvocation (selected clients props) c params]).
Proof.
  intros [Havail [Hin Hconv]].
  assert (Hsel : In (selected clients props) (getAvailableProviders clients))
    by now apply selectProvider_available.
  destruct (available_client _ _ Hsel) as [c Hc].
  assert (Hlen : Nat.eqb (List.length (getAvailableProviders clients)) 0 = false).
  { destruct (getAvailableProviders clients); [contradiction | reflexivity]. }
  exists c.
  exists {| model := selectModel (own props "model") (selected clients props);
            messages := sent_messages name props;
            max_tokens := or_else (own props "max_tokens") (VNum 1024%float);
            temperature := or_else (own props "temperature") (VNum 0.7%float) |}.
  split; [exact Hc |]. repeat (split; [reflexivity |]).
  unfold selected_model in Hconv.
  destruct Hin as [[-> Hprompt] | [-> [m [ms Hmsgs]]]].
  - unfold handleToolCall, generate_text, create, after_call, caught,
      sent_messages; simpl.
    rewrite Hprompt, Hlen; simpl. fold (selected clients props).
    rewrite (log_model_convertible number_text _ Hconv), Hc. simpl.
    destruct (backend c _) as [response | e]; simpl.
    + destruct (generatedText response); simpl; [reflexivity |].
      destruct (errorText _ _ _ _); reflexivity.
    + destruct (errorText _ _ _ _); reflexivity.
  - unfold handleToolCall, chat_conversation, create, after_call, caught,
      sent_messages; simpl.
    rewrite Hmsgs, Hlen; simpl. fold (selected clients props).
    rewrite (log_model_convertible number_text _ Hconv), Hc. simpl.
    destruct (backend c _) as [response | e]; simpl.
    + destruct (generatedText response); simpl; [reflexivity |].
      destruct (errorText _ _ _ _); reflexivity.
    + destruct (errorText _ _ _ _); reflexivity.
Qed.

(** A call that passes the check with a provider available, but selects a
    model whose string conversion throws, returns the text of the TypeError
    and calls no backend. *)
Lemma not_convertible_run (clients : registry)
  (backend : client -> requestParams -> completion value)
  (number_text : float -> string)
  (name : string) (props : list (string * value)) :
  getAvailableProviders clients <> [] ->
  passes_check name props ->
  convertible (selected_model clients props) = false ->
  handleToolCall clients backend number_text name (VObj props)
  = (Normal (mkResponse
               (VStr "Error: Cannot convert object to primitive value")), []).
Proof.
  intros Havail Hin Hconv.
  assert (Hlen : Nat.eqb (List.length (getAvailableProviders clients)) 0 = false).
  { destruct (getAvailableProviders clients); [contradiction | reflexivity]. }
  unfold selected_model in Hconv.
  destruct Hin as [[-> Hprompt] | [-> [m [ms Hmsgs]]]].
  - unfold handleToolCall, generate_text; simpl.
    rewrite Hprompt, Hlen; simpl. fold (selected clients props).
    rewrite (log_model_throws number_text _ Hconv). reflexivity.
  - unfold handleToolCall, chat_conversation; simpl.
    rewrite Hmsgs, Hlen; simpl. fold (selected clients props).
    rewrite (log_model_throws number_text _ Hconv). reflexivity.
Qed.

(** ** Input validation *)

(** Within an arguments object, a generate_text call whose [prompt] is
    missing or the empty string returns the fixed text
    'Error: Prompt is required' and calls no backend, whatever the registry
    and the backends are. *)
Lemma prompt_required (clients : registry)
  (backend : client -> requestParams -> completion value)
  (number_text : float -> string)
  (props : list (string * value)) :
  ~ In "prompt" (map fst props) \/ own props "prompt" = VStr "" ->
  text_of (handleToolCall clients backend number_text "generate_text" (VObj props))
  = Some (VStr "Error: Prompt is required")
  /\ calls_of (handleToolCall clients backend number_text "generate_text" (VObj props)) = [].
Proof.
  intros H.
  assert (Hfalsy : truthy (own props "prompt") = false).
  { destruct H as [H | H]; [rewrite (own_missing _ _ H) | rewrite H];
      reflexivity. }
  unfold handleToolCall, generate_text; simpl. rewrite Hfalsy. split; reflexivity.
Qed.

(** C7 at a call without an arguments object: the prompt is missing, and
    the destructuring of the arguments at line 101 throws a TypeError; no
    text is returned. *)
Theorem prompt_missing_without_arguments :
  handleToolCall hf_only (answering (VStr "hello")) no_number "generate_text"
    VUndefined
  = (Throw (type_error
       "Cannot destructure property 'prompt' of 'args' as it is undefined."),
     [])
  /\ text_of (handleToolCall hf_only (answering (VStr "hello")) no_number
                "generate_text" VUndefined) = None.
Proof. split; reflexivity. Qed.

(** Within an arguments object, a chat_conversation call whose [messages]
    is absent, is not an array or is the empty array returns the fixed text
    'Error: Messages array is required' and calls no backend. *)
Lemma messages_required (clients : registry)
  (backend : client -> requestParams -> completion value)
  (number_text : float -> string)
  (props : list (string * value)) :
  ~ In "messages" (map fst props)
  \/ isArray (own props "messages") = false
  \/ own props "messages" = VArr [] ->
  text_of (handleToolCall clients backend number_text "chat_conversation" (VObj props))
  = Some (VStr "Error: Messages array is required")
  /\ calls_of (handleToolCall clients backend number_text "chat_conversation" (VObj props))
     = [].
Proof.
  intros H.
  assert (Hbad : negb (truthy (own props "messages"))
                 || negb (isArray (own props "messages"))
                 || empty_array (own props "messages") = true).
  { destruct H as [H | [H | H]].
    - rewrite (own_missing _ _ H). reflexivity.
    - rewrite H. simpl. rewrite orb_true_r. reflexivity.
    - rewrite H. reflexivity. }
  unfold handleToolCall, chat_conversation; simpl. rewrite Hbad.
  split; reflexivity.
Qed.

(** C8 at a call without an arguments object: the messages are absent,
    and the destructuring of the arguments at line 212 throws a TypeError;
    no text is returned. *)
Theorem messages_missing_without_arguments :
  handleToolCall hf_only (answering (VStr "hello")) no_number
    "chat_conversation" VUndefined
  = (Throw (type_error
       "Cannot destructure property 'messages' of 'args' as it is undefined."),
     [])
  /\ text_of (handleToolCall hf_only (answering (VStr "hello")) no_number
                "chat_conversation" VUndefined) = None.
Proof. split; reflexivity. Qed.

Example messages_empty_array :
  handleToolCall hf_only (answering (VStr "hello")) no_number "chat_conversation"
    (VObj [("messages", VArr [])])
  = (Normal (mkResponse (VStr "Error: Messages array is required")), []).
Proof. reflexivity. Qed.

(** ** Provider and model selection *)

(** The default model of an available provider is a string of its catalog. *)
Lemma default_in_catalog (clients : registry) (p : string) :
  In p (getAvailableProviders clients) ->
  exists d ms,
    getDefaultModel p = VStr d /\ models_at MODELS p = Some ms
    /\ In d ms /\ NoDup ms.
Proof.
  rewrite getAvailableProviders_filter, filter_In. simpl.
  intros [[<- | [<- | [<- | []]]] _]; do 2 eexists;
    (split; [reflexivity |]); (split; [reflexivity |]);
    (split; [simpl; tauto |]);
    repeat (constructor; [simpl; intuition discriminate |]); constructor.
Qed.

(** C5. In a call of a generation tool that reaches the invocation step
    (a provider is available, the input passes the check of the tool, and
    the log line converts the selected model to a string), the sequence of
    available providers is the configured ones in the order huggingface,
    openai, anthropic; a requested provider that is a member of it is the
    one whose client is called; when none is requested, or the
    requested one is not a member, the client of the first entry is
    called. *)
Theorem provider_selection (clients : registry)
  (backend : client -> requestParams -> completion value)
  (number_text : float -> string)
  (name : string) (props : list (string * value)) :
  reaches_invocation clients name props ->
  let available := getAvailableProviders clients in
  let calls := calls_of (handleToolCall clients backend number_text name (VObj props)) in
  available = filter (fun p => present (client_at clients p))
                     ["huggingface"; "openai"; "anthropic"]
  /\ (forall p, own props "provider" = VStr p -> In p available ->
      exists c, client_at clients p = Some c
                /\ map inv_provider calls = [p] /\ map inv_client calls = [c])
  /\ (~ In "provider" (map fst props)
      \/ (exists s, own props "provider" = VStr s /\ ~ In s available) ->
      exists p c, hd_error available = Some p /\ client_at clients p = Some c
                  /\ map inv_provider calls = [p] /\ map inv_client calls = [c]).
Proof.
  intros Hreach available calls. subst available calls.
  destruct (generation_run backend number_text Hreach)
    as [c [params [Hc [_ [_ [_ [_ Hrun]]]]]]].
  rewrite Hrun. unfold calls_of; simpl.
  split; [apply getAvailableProviders_filter |]. split.
  - intros p Hreq Hin. exists c.
    assert (Hsel : selected clients props = p).
    { unfold selected. rewrite Hreq. apply selectProvider_requested;
        [exact Hin | exact (@available_nonempty_string _ _ Hin)]. }
    rewrite Hsel in *. auto.
  - intros Hnone.
    assert (Hincl : includes (getAvailableProviders clients)
                      (own props "provider") = false).
    { destruct Hnone as [Habsent | [s [Hreq Hnot]]].
      - rewrite (own_missing _ _ Habsent). reflexivity.
      - rewrite Hreq. destruct (includes _ (VStr s)) eqn:E; [| reflexivity].
        apply includes_In in E. contradiction. }
    pose proof (@selectProvider_first _ _ Hincl) as Hsel.
    fold (selected clients props) in Hsel.
    destruct Hreach as [Hne _].
    destruct (getAvailableProviders clients) as [| x rest] eqn:Havail;
      [contradiction |].
    simpl in Hsel. exists x, c. rewrite Hsel in *. auto.
Qed.

Lemma provider_selection_witness :
  reaches_invocation hf_and_openai "generate_text"
    [("prompt", VStr "hi"); ("provider", VStr "openai")]
  /\ exists c, client_at hf_and_openai "openai" = Some c
     /\ map inv_provider
          (calls_of (handleToolCall hf_and_openai (answering (VStr "hello")) no_number
                       "generate_text"
                       (VObj [("prompt", VStr "hi"); ("provider", VStr "openai")])))
        = ["openai"]
     /\ map inv_client
          (calls_of (handleToolCall hf_and_openai (answering (VStr "hello")) no_number
                       "generate_text"
                       (VObj [("prompt", VStr "hi"); ("provider", VStr "openai")])))
        = [c].
Proof.
  assert (H : reaches_invocation hf_and_openai "generate_text"
                [("prompt", VStr "hi"); ("provider", VStr "openai")]).
  { split; [discriminate | split; [left; split; reflexivity | reflexivity]]. }
  split; [exact H |].
  apply (proj1 (proj2 (provider_selection (answering (VStr "hello")) no_number H)));
    [reflexivity | simpl; tauto].
Defined.

Example unknown_provider_falls_back :
  map inv_provider
    (calls_of (handleToolCall hf_and_openai (answering (VStr "hello")) no_number
                 "chat_conversation"
                 (VObj [("messages", VArr [VObj [("role", VStr "user");
                                                 ("content", VStr "hi")]]);
                        ("provider", VStr "anthropic")])))
  = ["huggingface"].
Proof. reflexivity. Qed.

(** C6, as the code has it. In a call of a generation tool that reaches the
    invocation step, the model passed to the backend is the default model of
    the selected provider (a string of its catalog) when the [model]
    argument is omitted or falsy, the empty string included; a truthy
    [model] argument whose string conversion for the log line completes
    (every string, number and boolean, and every array or object without an
    own [toString] in it) is passed as it is, with no look-up in the
    catalog, and the backend is called with it. *)
Theorem model_selection (clients : registry)
  (backend : client -> requestParams -> completion value)
  (number_text : float -> string)
  (name : string) (props : list (string * value)) :
  reaches_invocation clients name props ->
  exists i d ms,
    calls_of (handleToolCall clients backend number_text name (VObj props)) = [i]
    /\ inv_provider i = selected clients props
    /\ getDefaultModel (selected clients props) = VStr d
    /\ models_at MODELS (selected clients props) = Some ms /\ In d ms
    /\ (~ In "model" (map fst props) -> model (inv_params i) = VStr d)
    /\ (truthy (own props "model") = false -> model (inv_params i) = VStr d)
    /\ (truthy (own props "model") = true ->
        model (inv_params i) = own props "model").
Proof.
  intros Hreach.
  destruct (generation_run backend number_text Hreach)
    as [c [params [Hc [Hmodel [_ [_ [_ Hrun]]]]]]].
  assert (Hsel : In (selected clients props) (getAvailableProviders clients))
    by (apply selectProvider_available; exact (proj1 Hreach)).
  destruct (@default_in_catalog _ _ Hsel) as [d [ms [Hd [Hms [Hin _]]]]].
  exists (mkInvocation (selected clients props) c params), d, ms.
  rewrite Hrun. simpl. rewrite Hmodel. unfold selectModel, or_else.
  repeat split; auto.
  - intros Habsent. rewrite (own_missing _ _ Habsent). simpl. exact Hd.
  - intros Hfalsy. rewrite Hfalsy. exact Hd.
  - intros Htruthy. rewrite Htruthy. reflexivity.
Qed.

Lemma model_selection_witness :
  reaches_invocation hf_only "generate_text"
    [("prompt", VStr "hi"); ("model", VStr "not-in-any-catalog")]
  /\ exists i d ms,
       calls_of (handleToolCall hf_only (answering (VStr "hello")) no_number
                   "generate_text"
                   (VObj [("prompt", VStr "hi");
                          ("model", VStr "not-in-any-catalog")])) = [i]
       /\ inv_provider i = selected hf_only
                             [("prompt", VStr "hi");
                              ("model", VStr "not-in-any-catalog")]
       /\ getDefaultModel (selected hf_only
                             [("prompt", VStr "hi");
                              ("model", VStr "not-in-any-catalog")]) = VStr d
       /\ models_at MODELS (selected hf_only
                              [("prompt", VStr "hi");
                               ("model", VStr "not-in-any-catalog")]) = Some ms
       /\ In d ms
       /\ (~ In "model" (map fst [("prompt", VStr "hi");
                                  ("model", VStr "not-in-any-catalog")]) ->
           model (inv_params i) = VStr d)
       /\ (truthy (own [("prompt", VStr "hi");
                        ("model", VStr "not-in-any-catalog")] "model") = false ->
           model (inv_params i) = VStr d)
       /\ (truthy (own [("prompt", VStr "hi");
                        ("model", VStr "not-in-any-catalog")] "model") = true ->
           model (inv_params i)
           = own [("prompt", VStr "hi"); ("model", VStr "not-in-any-catalog")]
                 "model").
Proof.
  assert (H : reaches_invocation hf_only "generate_text"
                [("prompt", VStr "hi"); ("model", VStr "not-in-any-catalog")]).
  { split; [discriminate | split; [left; split; reflexivity | reflexivity]]. }
  split; [exact H |].
  exact (model_selection (answering (VStr "hello")) no_number H).
Defined.

(** C6, as stated, fails: an empty string given as [model] is not passed to
    the backend; the default model of the provider is. *)
Lemma empty_model_replaced :
  own [("prompt", VStr "hi"); ("model", VStr "")] "model" = VStr ""
  /\ map (fun i => model (inv_params i))
       (calls_of (handleToolCall hf_only (answering (VStr "hello")) no_number
                    "generate_text"
                    (VObj [("prompt", VStr "hi"); ("model", VStr "")])))
     = [VStr "meta-llama/Llama-3.2-3B-Instruct"]
  /\ VStr "meta-llama/Llama-3.2-3B-Instruct" <> VStr "".
Proof. repeat split. discriminate. Qed.

(** ** The parameters of the call *)

(** What a generation tool passes to the backend: the selected model, its
    messages, and [max_tokens] and [temperature] with their defaults in the
    place of a falsy argument. *)
Lemma parameters_sent (clients : registry)
  (backend : client -> requestParams -> completion value)
  (number_text : float -> string)
  (name : string) (props : list (string * value)) :
  reaches_invocation clients name props ->
  exists i,
    calls_of (handleToolCall clients backend number_text name (VObj props)) = [i]
    /\ model (inv_params i)
       = selectModel (own props "model") (selected clients props)
    /\ messages (inv_params i) = sent_messages name props
    /\ max_tokens (inv_params i)
       = or_else (own props "max_tokens") (VNum 1024%float)
    /\ temperature (inv_params i)
       = or_else (own props "temperature") (VNum 0.7%float).
Proof.
  intros Hreach.
  destruct (generation_run backend number_text Hreach)
    as [c [params [_ [Hmodel [Hmsgs [Hmax [Htemp Hrun]]]]]]].
  eexists. rewrite Hrun. unfold calls_of; simpl. auto.
Qed.

(** C10. In a call of a generation tool that reaches the invocation step (a
    provider is available, the input passes the check of the tool, and the
    log line converts the selected model to a string), a
    [temperature] of 0 is replaced by 0.7 and a [max_tokens] of 0 by 1024 in
    the parameters given to the backend, as is every other falsy value of
    these arguments. *)
Theorem zero_parameters_replaced (clients : registry)
  (backend : client -> requestParams -> completion value)
  (number_text : float -> string)
  (name : string) (props : list (string * value)) :
  reaches_invocation clients name props ->
  exists i,
    calls_of (handleToolCall clients backend number_text name (VObj props)) = [i]
    /\ (own props "temperature" = VNum 0%float ->
        temperature (inv_params i) = VNum 0.7%float)
    /\ (own props "max_tokens" = VNum 0%float ->
        max_tokens (inv_params i) = VNum 1024%float)
    /\ (truthy (own props "temperature") = false ->
        temperature (inv_params i) = VNum 0.7%float)
    /\ (truthy (own props "max_tokens") = false ->
        max_tokens (inv_params i) = VNum 1024%float).
Proof.
  intros Hreach.
  destruct (parameters_sent backend number_text Hreach)
    as [i [Hcalls [_ [_ [Hmax Htemp]]]]].
  exists i. rewrite Hmax, Htemp. unfold or_else.
  repeat split; auto; intros H; rewrite H; reflexivity.
Qed.

Lemma zero_parameters_replaced_witness :
  reaches_invocation hf_only "chat_conversation"
    [("messages", VArr [VObj [("role", VStr "user"); ("content", VStr "hi")]]);
     ("temperature", VNum 0%float); ("max_tokens", VNum 0%float)]
  /\ map (fun i => (temperature (inv_params i), max_tokens (inv_params i)))
       (calls_of (handleToolCall hf_only (answering (VStr "hello")) no_number
                    "chat_conversation"
                    (VObj [("messages",
                            VArr [VObj [("role", VStr "user");
                                        ("content", VStr "hi")]]);
                           ("temperature", VNum 0%float);
                           ("max_tokens", VNum 0%float)])))
     = [(VNum 0.7%float, VNum 1024%float)].
Proof.
  assert (H : reaches_invocation hf_only "chat_conversation"
                [("messages",
                  VArr [VObj [("role", VStr "user"); ("content", VStr "hi")]]);
                 ("temperature", VNum 0%float); ("max_tokens", VNum 0%float)]).
  { split; [discriminate | split; [| reflexivity]].
    right; split; [reflexivity |]. do 2 eexists. reflexivity. }
  split; [exact H |].
  destruct (zero_parameters_replaced (answering (VStr "hello")) no_number H)
    as [i [Hcalls [Htemp [Hmax _]]]].
  rewrite Hcalls. simpl.
  rewrite (Htemp eq_refl), (Hmax eq_refl). reflexivity.
Defined.

(** C3 at [temperature: 0], a value of the range the tool declares: the
    backend is called with 0.7, not with the value of the caller. *)
Theorem temperature_zero_not_sent :
  own [("prompt", VStr "hi"); ("temperature", VNum 0%float)] "temperature"
  = VNum 0%float
  /\ map inv_params
       (calls_of (handleToolCall hf_only (answering (VStr "hello")) no_number
                    "generate_text"
                    (VObj [("prompt", VStr "hi");
                           ("temperature", VNum 0%float)])))
     = [ {| model := VStr "meta-llama/Llama-3.2-3B-Instruct";
            messages := VArr [VObj [("role", VStr "user");
                                    ("content", VStr "hi")]];
            max_tokens := VNum 1024%float;
            temperature := VNum 0.7%float |} ].
Proof. split; reflexivity. Qed.

Example temperature_passed :
  map (fun i => temperature (inv_params i))
    (calls_of (handleToolCall hf_only (answering (VStr "hello")) no_number
                 "generate_text"
                 (VObj [("prompt", VStr "hi");
                        ("temperature", VNum 1.5%float)])))
  = [VNum 1.5%float].
Proof. reflexivity. Qed.

(** ** Failures of the backend *)

(** What the catch block makes of a caught value that is not [undefined]
    or [null], by the status it reads at [error.response?.status]. *)
Lemma caught_by_status (number_text : float -> string)
  (name p : string) (e : value) :
  e <> VUndefined -> e <> VNull ->
  (is_number (status_of e) 401%float = true ->
   caught number_text name p e
   = Normal (mkResponse (VStr ("Error: Authentication failed for " ++ p
                               ++ ". Please check your API key."))))
  /\ (is_number (status_of e) 401%float = false ->
      is_number (status_of e) 429%float = true ->
      caught number_text name p e
      = Normal (mkResponse (VStr ("Error: Rate limit exceeded for " ++ p
                                  ++ ". Please try again later."))))
  /\ (is_number (status_of e) 401%float = false ->
      is_number (status_of e) 429%float = false ->
      (forall m, get_opt e "message" = VStr m -> m <> "" ->
         caught number_text name p e
         = Normal (mkResponse (VStr ("Error: " ++ m))))
      /\ (truthy (get_opt e "message") = false ->
          caught number_text name p e
          = Normal (mkResponse (VStr ("Error: " ++ fallback_of name))))).
Proof.
  intros Hu Hn.
  assert (Hget : get e "response" = Normal (get_opt e "response"))
    by (destruct e; try reflexivity; contradiction).
  unfold caught, errorText, status_of. rewrite Hget.
  split; [intros H; rewrite H; reflexivity |].
  split; [intros H1 H2; rewrite H1, H2; reflexivity |].
  intros H1 H2. rewrite H1, H2. split.
  - intros m Hm Hne. rewrite Hm. simpl.
    destruct (String.eqb m "") eqn:E; [| reflexivity].
    apply String.eqb_eq in E. contradiction.
  - intros Hf. rewrite Hf. reflexivity.
Qed.

(** C2 at the error the client made by [new OpenAI(...)] raises for a
    reply with status 401 or 429: it carries the status on itself and has
    no [response], so lines 163 and 165 do not recognise it; the text is
    'Error: ' followed by the message of the error and carries neither
    'Authentication failed' nor 'Rate limit exceeded'. *)
Theorem api_status_not_classified :
  text_of (handleToolCall hf_only
             (failing (api_error 401%float "401 Incorrect API key provided"))
             no_number "generate_text" (VObj [("prompt", VStr "hi")]))
  = Some (VStr "Error: 401 Incorrect API key provided")
  /\ contains "Error: 401 Incorrect API key provided" "Authentication failed"
     = false
  /\ text_of (handleToolCall hf_only
                (failing (api_error 429%float "429 Rate limit reached"))
                no_number "chat_conversation"
                (VObj [("messages", VArr [user_message "hi"])]))
     = Some (VStr "Error: 429 Rate limit reached")
  /\ contains "Error: 429 Rate limit reached" "Rate limit exceeded" = false.
Proof. repeat split. Qed.

Example unauthorized_by_response_status :
  text_of (handleToolCall hf_only (failing (http_error 401%float "Unauthorized"))
             no_number "generate_text" (VObj [("prompt", VStr "hi")]))
  = Some (VStr
      "Error: Authentication failed for huggingface. Please check your API key.").
Proof. reflexivity. Qed.

Example message_after_prefix :
  text_of (handleToolCall hf_only (failing (http_error 500%float "boom"))
             no_number "generate_text" (VObj [("prompt", VStr "hi")]))
  = Some (VStr "Error: boom").
Proof. reflexivity. Qed.

Example rate_limited_chat :
  text_of (handleToolCall hf_and_openai (failing (http_error 429%float "Too many")) no_number
             "chat_conversation"
             (VObj [("messages", VArr [VObj [("role", VStr "user");
                                             ("content", VStr "hi")]]);
                    ("provider", VStr "openai")]))
  = Some (VStr "Error: Rate limit exceeded for openai. Please try again later.").
Proof. reflexivity. Qed.

Example error_without_message :
  text_of (handleToolCall hf_only (failing (VObj [])) no_number
             "chat_conversation"
             (VObj [("messages", VArr [VObj [("role", VStr "user");
                                             ("content", VStr "hi")]])]))
  = Some (VStr "Error: Failed to process chat").
Proof. reflexivity. Qed.

(** ** The generated text *)

(** C4, as the code has it. In a call of a generation tool that reaches the
    invocation step, when the backend returns a response whose [choices] is
    there (not [undefined] or [null]) and whose
    [choices[0]?.message?.content] is a non-empty string X, the handler
    returns the text X; when that content is absent (no first choice, no
    message, or no content), or is the empty string or another falsy value,
    the handler returns the text 'No response generated'. *)
Theorem generated_text_returned (clients : registry)
  (backend : client -> requestParams -> completion value)
  (number_text : float -> string)
  (name : string) (props : list (string * value)) :
  reaches_invocation clients name props ->
  exists i,
    calls_of (handleToolCall clients backend number_text name (VObj props)) = [i]
    /\ forall response,
         backend (inv_client i) (inv_params i) = Normal response ->
         (forall X, content_is response (VStr X) -> X <> "" ->
            fst (handleToolCall clients backend number_text name (VObj props))
            = Normal (mkResponse (VStr X)))
         /\ (content_is response VUndefined ->
             fst (handleToolCall clients backend number_text name (VObj props))
             = Normal (mkResponse (VStr "No response generated")))
         /\ (forall v, content_is response v -> truthy v = false ->
             fst (handleToolCall clients backend number_text name (VObj props))
             = Normal (mkResponse (VStr "No response generated"))).
Proof.
  intros Hreach.
  destruct (generation_run backend number_text Hreach)
    as [c [params [_ [_ [_ [_ [_ Hrun]]]]]]].
  exists (mkInvocation (selected clients props) c params).
  rewrite Hrun. unfold calls_of; simpl. split; [reflexivity |].
  intros response Hresp. rewrite Hresp. unfold after_call.
  assert (Hgen : forall v, content_is response v ->
            generatedText response
            = Normal (or_else v (VStr "No response generated"))).
  { intros v [choices [choice [H1 [H2 H3]]]].
    unfold generatedText. rewrite H1, H2, H3. reflexivity. }
  split; [| split].
  - intros X HX Hne. rewrite (Hgen _ HX). unfold or_else. simpl.
    destruct (String.eqb X "") eqn:E.
    + apply String.eqb_eq in E. contradiction.
    + reflexivity.
  - intros Habs. rewrite (Hgen _ Habs). reflexivity.
  - intros v Hv Hfalsy. rewrite (Hgen _ Hv). unfold or_else.
    rewrite Hfalsy. reflexivity.
Qed.

Lemma content_of_response (content : value) :
  content_is (response_with (choice_with content)) content.
Proof. do 2 eexists. repeat split. Qed.

Lemma generated_text_returned_witness :
  reaches_invocation hf_only "generate_text" [("prompt", VStr "hi")]
  /\ fst (handleToolCall hf_only (answering (VStr "Bonjour")) no_number
            "generate_text" (VObj [("prompt", VStr "hi")]))
     = Normal (mkResponse (VStr "Bonjour")).
Proof.
  assert (H : reaches_invocation hf_only "generate_text" [("prompt", VStr "hi")]).
  { split; [discriminate | split; [left; split; reflexivity | reflexivity]]. }
  split; [exact H |].
  destruct (generated_text_returned (answering (VStr "Bonjour")) no_number H)
    as [i [_ Hresp]].
  destruct (Hresp (response_with (choice_with (VStr "Bonjour"))) eq_refl)
    as [Hcontent _].
  apply Hcontent; [apply content_of_response | discriminate].
Defined.

(** C4, as stated, fails: a response whose content is the empty string is
    not answered with that string but with the placeholder. *)
Lemma empty_content_replaced :
  content_is (response_with (choice_with (VStr ""))) (VStr "")
  /\ text_of (handleToolCall hf_only (answering (VStr "")) no_number
                "generate_text" (VObj [("prompt", VStr "hi")]))
     = Some (VStr "No response generated")
  /\ VStr "No response generated" <> VStr "".
Proof.
  split; [apply content_of_response |]. split; [reflexivity | discriminate].
Qed.

Example no_choice_placeholder :
  text_of (handleToolCall hf_only (fun _ _ => Normal (VObj [("choices", VArr [])])) no_number
             "generate_text" (VObj [("prompt", VStr "hi")]))
  = Some (VStr "No response generated").
Proof. reflexivity. Qed.

(** ** No provider configured *)

(** C1, as the code has it. When no provider is configured, no call of the
    handler calls a backend; a call that passes the input check of its tool
    returns a text that starts with 'No AI providers configured', and the
    text of generate_text goes on to name the three credential slots
    HF_TOKEN, OPENAI_API_KEY and ANTHROPIC_API_KEY. *)
Theorem no_provider_configured (clients : registry)
  (backend : client -> requestParams -> completion value)
  (number_text : float -> string)
  (name : string) (args : value) :
  getAvailableProviders clients = [] ->
  calls_of (handleToolCall clients backend number_text name args) = []
  /\ (forall props, name = "generate_text" -> args = VObj props ->
      truthy (own props "prompt") = true ->
      text_of (handleToolCall clients backend number_text name args)
      = Some (VStr no_providers_help)
      /\ String.prefix "No AI providers configured" no_providers_help = true
      /\ enumerates_slots no_providers_help = true)
  /\ (name = "list_models" ->
      exists t, text_of (handleToolCall clients backend number_text name args)
                = Some (VStr t)
                /\ String.prefix "No AI providers configured" t = true)
  /\ (forall props m ms, name = "chat_conversation" -> args = VObj props ->
      own props "messages" = VArr (m :: ms) ->
      exists t, text_of (handleToolCall clients backend number_text name args)
                = Some (VStr t)
                /\ String.prefix "No AI providers configured" t = true).
Proof.
  intros Hnone. split; [| split; [| split]].
  - unfold handleToolCall, generate_text, list_models, chat_conversation.
    rewrite Hnone.
    destruct (String.eqb name "generate_text");
      [destruct args; simpl; try reflexivity;
       destruct (truthy (own props "prompt")); reflexivity |].
    destruct (String.eqb name "list_models"); [reflexivity |].
    destruct (String.eqb name "chat_conversation"); [| reflexivity].
    destruct args; simpl; try reflexivity.
    destruct (negb (truthy (own props "messages"))
              || negb (isArray (own props "messages"))
              || empty_array (own props "messages")); reflexivity.
  - intros props -> -> Hprompt.
    unfold handleToolCall, generate_text; simpl.
    rewrite Hprompt, Hnone. repeat split.
  - intros ->. unfold handleToolCall, list_models; simpl. rewrite Hnone.
    eexists. split; reflexivity.
  - intros props m ms -> -> Hmsgs.
    unfold handleToolCall, chat_conversation; simpl. rewrite Hmsgs, Hnone.
    eexists. split; reflexivity.
Qed.

Lemma no_provider_configured_witness :
  getAvailableProviders (init_clients {| HF_TOKEN := None;
                                         OPENAI_API_KEY := Some "";
                                         ANTHROPIC_API_KEY := None |}) = []
  /\ calls_of (handleToolCall
                 (init_clients {| HF_TOKEN := None; OPENAI_API_KEY := Some "";
                                  ANTHROPIC_API_KEY := None |})
                 (answering (VStr "hello")) no_number "generate_text"
                 (VObj [("prompt", VStr "hi")])) = []
  /\ text_of (handleToolCall
                (init_clients {| HF_TOKEN := None; OPENAI_API_KEY := Some "";
                                 ANTHROPIC_API_KEY := None |})
                (answering (VStr "hello")) no_number "generate_text"
                (VObj [("prompt", VStr "hi")]))
     = Some (VStr no_providers_help).
Proof.
  assert (H : getAvailableProviders
                (init_clients {| HF_TOKEN := None; OPENAI_API_KEY := Some "";
                                 ANTHROPIC_API_KEY := None |}) = [])
    by reflexivity.
  split; [exact H |].
  destruct (@no_provider_configured _ (answering (VStr "hello")) no_number
              "generate_text" (VObj [("prompt", VStr "hi")]) H)
    as [Hcalls [Hgen _]].
  split; [exact Hcalls |].
  exact (proj1 (Hgen [("prompt", VStr "hi")] eq_refl eq_refl eq_refl)).
Defined.

(** C1, as stated, fails: with no provider configured the text of
    list_models names none of the credential slots. *)
Lemma list_models_names_no_slot :
  getAvailableProviders no_clients = []
  /\ text_of (handleToolCall no_clients (answering (VStr "hello")) no_number
                "list_models" (VObj []))
     = Some (VStr "No AI providers configured.")
  /\ contains "No AI providers configured." "HF_TOKEN" = false
  /\ enumerates_slots "No AI providers configured." = false.
Proof. repeat split. Qed.

Example chat_without_provider :
  handleToolCall no_clients (answering (VStr "hello")) no_number "chat_conversation"
    (VObj [("messages", VArr [VObj [("role", VStr "user");
                                    ("content", VStr "hi")]])])
  = (Normal (mkResponse (VStr "No AI providers configured.")), []).
Proof. reflexivity. Qed.

Example prompt_checked_before_providers :
  handleToolCall no_clients (answering (VStr "hello")) no_number "generate_text" (VObj [])
  = (Normal (mkResponse (VStr "Error: Prompt is required")), []).
Proof. reflexivity. Qed.

(** ** The list of models *)

(** The loops of [list_models] write the blocks of the providers one after
    the other. *)
Lemma append_assoc (a b c : string) : (a ++ b) ++ c = a ++ b ++ c.
Proof. induction a; simpl; [reflexivity | now f_equal]. Qed.

Lemma append_empty (a : string) : a ++ "" = a.
Proof. induction a; simpl; [reflexivity | now f_equal]. Qed.

Lemma concat_cons (x : string) (xs : list string) :
  String.concat "" (x :: xs) = x ++ String.concat "" xs.
Proof. destruct xs; simpl; [now rewrite append_empty | reflexivity]. Qed.

Lemma render_models_concat (provider : string) (models : list string)
  (modelList : string) :
  render_models provider models modelList
  = modelList ++ String.concat "" (map (model_line provider) models).
Proof.
  unfold render_models. revert modelList.
  induction models as [| m rest IH]; intros modelList.
  - simpl. now rewrite append_empty.
  - rewrite map_cons, concat_cons. cbn [fold_left]. rewrite IH.
    unfold model_line. now rewrite append_assoc.
Qed.

Lemma render_providers_concat (providers : list string) (modelList : string) :
  (forall p, In p providers -> exists ms, models_at MODELS p = Some ms) ->
  render_providers providers modelList
  = Normal (modelList ++ String.concat "" (map provider_block providers)).
Proof.
  revert modelList.
  induction providers as [| p rest IH]; intros modelList Hall.
  - simpl. now rewrite append_empty.
  - rewrite map_cons, concat_cons. cbn [render_providers].
    destruct (Hall p (or_introl eq_refl)) as [ms Hms].
    unfold provider_block at 1. rewrite Hms, render_models_concat.
    rewrite IH by (intros q Hq; apply Hall; now right).
    now rewrite !append_assoc.
Qed.

(** C9. When a provider is available, list_models calls no backend and
    returns a text made of a title and one block per available provider, in
    the order of availability; every model of the catalog of such a provider
    is on exactly one line of the text, the default model of the provider (a
    member of its catalog) on a line annotated '(default)' and every other
    model on a line without annotation, so that the text has one annotated
    line per available provider. *)
Theorem list_models_text (clients : registry)
  (backend : client -> requestParams -> completion value)
  (number_text : float -> string) (args : value) :
  getAvailableProviders clients <> [] ->
  exists t,
    handleToolCall clients backend number_text "list_models" args
    = (Normal (mkResponse (VStr t)), [])
    /\ t = "Available AI Models:" ++ newline ++ newline
           ++ String.concat "" (map provider_block (getAvailableProviders clients))
    /\ List.length (annotated_lines t)
       = List.length (getAvailableProviders clients)
    /\ forall p, In p (getAvailableProviders clients) ->
       exists d ms,
         getDefaultModel p = VStr d /\ models_at MODELS p = Some ms
         /\ In d ms
         /\ occurrences ("**" ++ toUpperCase p ++ ":**") (lines t) = 1
         /\ occurrences ("- " ++ d ++ " (default)") (lines t) = 1
         /\ occurrences ("- " ++ d) (lines t) = 0
         /\ forall m, In m ms -> m <> d ->
              occurrences ("- " ++ m) (lines t) = 1
              /\ occurrences ("- " ++ m ++ " (default)") (lines t) = 0.
Proof.
  intros Hne.
  assert (Hcatalog : forall p, In p (getAvailableProviders clients) ->
                     exists ms, models_at MODELS p = Some ms).
  { intros p Hp. destruct (@default_in_catalog _ _ Hp) as [d [ms [_ [Hms _]]]].
    now exists ms. }
  exists ("Available AI Models:" ++ newline ++ newline
          ++ String.concat "" (map provider_block (getAvailableProviders clients))).
  split.
  { unfold handleToolCall, list_models; simpl.
    rewrite (render_providers_concat _ _ Hcatalog).
    destruct (getAvailableProviders clients); [contradiction | reflexivity]. }
  split; [reflexivity |]. clear Hcatalog.
  destruct clients as [[h |] [o |] [a |]];
    try (exfalso; apply Hne; reflexivity);
    (split; [vm_compute; reflexivity |];
     intros p Hin; vm_compute in Hin;
     repeat (destruct Hin as [<- | Hin]); try contradiction;
     do 2 eexists;
     (split; [vm_compute; reflexivity |]);
     (split; [vm_compute; reflexivity |]);
     (split; [simpl; tauto |]);
     (split; [vm_compute; reflexivity |]);
     (split; [vm_compute; reflexivity |]);
     (split; [vm_compute; reflexivity |]);
     intros m Hm Hd; simpl in Hm;
     repeat (destruct Hm as [<- | Hm]); try contradiction;
     try (exfalso; apply Hd; reflexivity);
     split; vm_compute; reflexivity).
Qed.

Lemma list_models_text_witness :
  getAvailableProviders hf_and_openai <> []
  /\ exists t,
       handleToolCall hf_and_openai (answering (VStr "hello")) no_number "list_models"
         VUndefined
       = (Normal (mkResponse (VStr t)), [])
       /\ occurrences "- gpt-4o-mini (default)" (lines t) = 1
       /\ occurrences "- gpt-4o" (lines t) = 1
       /\ List.length (annotated_lines t) = 2.
Proof.
  assert (H : getAvailableProviders hf_and_openai <> []) by discriminate.
  split; [exact H |].
  destruct (@list_models_text _ (answering (VStr "hello")) no_number VUndefined H)
    as [t [Hrun [_ [Hcount Hall]]]].
  exists t. split; [exact Hrun |].
  destruct (Hall "openai") as [d [ms [Hd [Hms [_ [_ [Hdef [_ Hrest]]]]]]]];
    [simpl; tauto |].
  injection Hd as <-. injection Hms as <-.
  split; [exact Hdef |].
  split; [apply (Hrest "gpt-4o"); [simpl; tauto | discriminate] |].
  exact Hcount.
Defined.

(** ** The shape of every run *)

Example advertised_three :
  advertised_names = ["generate_text"; "list_models"; "chat_conversation"].
Proof. reflexivity. Qed.

Example required_of_chat : required_arguments "chat_conversation" = ["messages"].
Proof. reflexivity. Qed.

Example temperature_bounds :
  get_opt (argument_schema "generate_text" "temperature") "minimum" = VNum 0%float
  /\ get_opt (argument_schema "generate_text" "temperature") "maximum" = VNum 2%float.
Proof. split; reflexivity. Qed.

Lemma truthy_get_opt_object (args : value) (k : string) :
  truthy (get_opt args k) = true -> exists props, args = VObj props.
Proof. destruct args; simpl; try discriminate. intros _. now eexists. Qed.

(** The check of [messages] passes exactly on a non-empty array. *)
Lemma messages_check (v : value) :
  negb (truthy v) || negb (isArray v) || empty_array v = false
  <-> exists m ms, v = VArr (m :: ms).
Proof.
  split.
  - destruct v as [| | b | x | s | [| m ms] | props]; simpl;
      try discriminate; try (rewrite orb_true_r; discriminate).
    intros _. now do 2 eexists.
  - intros [m [ms ->]]. reflexivity.
Qed.

(** The text of [list_models] when a provider is available. *)
Lemma list_models_run (clients : registry) :
  getAvailableProviders clients <> [] ->
  list_models clients
  = (Normal (mkResponse (VStr
       ("Available AI Models:" ++ newline ++ newline
        ++ String.concat "" (map provider_block (getAvailableProviders clients))))),
     []).
Proof.
  intros Hne. unfold list_models.
  rewrite render_providers_concat.
  - destruct (getAvailableProviders clients); [contradiction | reflexivity].
  - intros p Hp. destruct (@default_in_catalog _ _ Hp) as [d [ms [_ [Hms _]]]].
    now exists ms.
Qed.

(** Every run of the handler is of one of three kinds: the destructuring of
    missing arguments throws; a text is returned without any call; or the
    call reaches the invocation step and makes its one call. *)
(** A text that does not start with 'Unknown tool: ', for an advertised
    tool. *)
Ltac known_tool :=
  split; [intros H; discriminate H
         | intros H; exfalso; apply H; simpl; tauto].

Lemma handleToolCall_cases (clients : registry)
  (backend : client -> requestParams -> completion value)
  (number_text : float -> string)
  (name : string) (args : value) :
  (reads_arguments name /\ nullish args
   /\ exists e, handleToolCall clients backend number_text name args
                = (Throw e, []))
  \/ (~ nullish args \/ ~ reads_arguments name)
     /\ (forall props, args = VObj props ->
         ~ reaches_invocation clients name props)
     /\ (exists t, handleToolCall clients backend number_text name args
                   = (Normal (mkResponse (VStr t)), [])
                   /\ t <> ""
                   /\ (String.prefix "Unknown tool: " t = true
                       <-> ~ In name advertised_names))
  \/ exists props c params,
       args = VObj props /\ reaches_invocation clients name props
       /\ client_at clients (selected clients props) = Some c
       /\ handleToolCall clients backend number_text name args
          = (after_call number_text name (selected clients props)
                        (backend c params),
             [mkInvocation (selected clients props) c params]).
Proof.
  assert (Hreach : forall props, reaches_invocation clients name props ->
            exists c params,
              VObj props = VObj props /\ reaches_invocation clients name props
              /\ client_at clients (selected clients props) = Some c
              /\ handleToolCall clients backend number_text name (VObj props)
                 = (after_call number_text name (selected clients props)
                               (backend c params),
                    [mkInvocation (selected clients props) c params])).
  { intros props H.
    destruct (generation_run backend number_text H)
      as [c [params [Hc [_ [_ [_ [_ Hrun]]]]]]].
    exists c, params. auto. }
  assert (Hpassed : forall props,
            getAvailableProviders clients <> [] ->
            passes_check name props ->
            (exists c params,
               VObj props = VObj props /\ reaches_invocation clients name props
               /\ client_at clients (selected clients props) = Some c
               /\ handleToolCall clients backend number_text name (VObj props)
                  = (after_call number_text name (selected clients props)
                                (backend c params),
                     [mkInvocation (selected clients props) c params]))
            \/ (~ reaches_invocation clients name props
                /\ handleToolCall clients backend number_text name (VObj props)
                   = (Normal (mkResponse
                        (VStr "Error: Cannot convert object to primitive value")),
                      []))).
  { intros props Havail Hcheck.
    destruct (convertible (selected_model clients props)) eqn:Hconv.
    - left. apply Hreach. repeat split; assumption.
    - right. split.
      + intros [_ [_ H]]. congruence.
      + now apply not_convertible_run. }
  unfold handleToolCall in *.
  destruct (String.eqb name "generate_text") eqn:Egen.
  { apply String.eqb_eq in Egen. subst name.
    destruct args as [| | b | x | s | items | props];
      try (left; split; [now left |]; split; [(now left) || (now right) |];
           eexists; reflexivity);
      try (right; left; split; [left; intros [H | H]; discriminate |];
           split; [intros props H; discriminate |];
           eexists; split; [reflexivity | split; [discriminate | known_tool]]).
    destruct (truthy (own props "prompt")) eqn:Hprompt.
    - destruct (getAvailableProviders clients) as [| x rest] eqn:Havail.
      + right; left. split; [left; intros [H | H]; discriminate |].
        split.
        * intros props' _ [Hne _]. apply Hne. exact Havail.
        * unfold generate_text; simpl. rewrite Hprompt, Havail.
          eexists; split; [reflexivity | split; [discriminate | known_tool]].
      + destruct (Hpassed props) as [[c [params Hall]] | [Hnot Hrun]];
          [try rewrite Havail; discriminate | left; now split | |].
        * right; right. exists props, c, params. exact Hall.
        * right; left. split; [left; intros [H | H]; discriminate |].
          split; [intros props' Heq; injection Heq as <-; exact Hnot |].
          rewrite Hrun.
          eexists; split; [reflexivity | split; [discriminate | known_tool]].
    - right; left. split; [left; intros [H | H]; discriminate |].
      split.
      + intros props' Heq [_ [[[_ H] | [H _]] _]]; [| discriminate].
        injection Heq as <-. congruence.
      + unfold generate_text; simpl. rewrite Hprompt.
        eexists; split; [reflexivity | split; [discriminate | known_tool]]. }
  destruct (String.eqb name "list_models") eqn:Elist.
  { apply String.eqb_eq in Elist. subst name. right; left.
    split; [right; intros [H | H]; discriminate |].
    split; [intros props _ [_ [[[H _] | [H _]] _]]; discriminate |].
    destruct (getAvailableProviders clients) as [| x rest] eqn:Havail.
    - unfold list_models. rewrite Havail.
      eexists; split; [reflexivity | split; [discriminate | known_tool]].
    - rewrite list_models_run by (rewrite Havail; discriminate).
      eexists; split; [reflexivity | split; [discriminate | known_tool]]. }
  destruct (String.eqb name "chat_conversation") eqn:Echat.
  { apply String.eqb_eq in Echat. subst name.
    destruct args as [| | b | x | s | items | props];
      try (left; split; [now right |]; split; [(now left) || (now right) |];
           eexists; reflexivity);
      try (right; left; split; [left; intros [H | H]; discriminate |];
           split; [intros props H; discriminate |];
           eexists; split; [reflexivity | split; [discriminate | known_tool]]).
    destruct (negb (truthy (own props "messages"))
              || negb (isArray (own props "messages"))
              || empty_array (own props "messages")) eqn:Hcheck.
    - right; left. split; [left; intros [H | H]; discriminate |].
      split.
      + intros props' Heq [_ [[[H _] | [_ H]] _]]; [discriminate |].
        injection Heq as <-. apply messages_check in H. congruence.
      + unfold chat_conversation; simpl. rewrite Hcheck.
        eexists; split; [reflexivity | split; [discriminate | known_tool]].
    - destruct (getAvailableProviders clients) as [| x rest] eqn:Havail.
      + right; left. split; [left; intros [H | H]; discriminate |].
        split.
        * intros props' _ [Hne _]. apply Hne. exact Havail.
        * unfold chat_conversation; simpl. rewrite Hcheck, Havail.
          eexists; split; [reflexivity | split; [discriminate | known_tool]].
      + destruct (Hpassed props) as [[c [params Hall]] | [Hnot Hrun]];
          [try rewrite Havail; discriminate
          | right; split; [reflexivity | now apply messages_check] | |].
        * right; right. exists props, c, params. exact Hall.
        * right; left. split; [left; intros [H | H]; discriminate |].
          split; [intros props' Heq; injection Heq as <-; exact Hnot |].
          rewrite Hrun.
          eexists; split; [reflexivity | split; [discriminate | known_tool]]. }
  right; left. split.
  - right. intros [-> | ->]; discriminate.
  - split.
    + intros props _ [_ [[[-> _] | [-> _]] _]]; discriminate.
    + eexists; split; [reflexivity | split; [discriminate |]].
      split; [| intros _; apply (prefix_app "Unknown tool: ")].
      intros _ [<- | [<- | [<- | []]]]; discriminate.
Qed.

(** ** What every run does and never does *)

Lemma after_call_throws (number_text : float -> string)
  (name p : string) (outcome : completion value) :
  (exists e', after_call number_text name p outcome = Throw e')
  <-> exists e, outcome = Throw e /\ catch_throws e.
Proof.
  unfold after_call. destruct outcome as [response | e].
  - split; [| intros [e [H _]]; discriminate].
    intros [e' H]. exfalso.
    destruct (generatedText response) as [t | e] eqn:E; [discriminate |].
    destruct (generatedText_throws _ E) as [msg [-> Hne]].
    rewrite (caught_type_error number_text name p Hne) in H. discriminate.
  - rewrite caught_throws_iff. split.
    + intros H. now exists e.
    + intros [e0 [H H0]]. injection H as <-. exact H0.
Qed.

(** X1. The handler throws in two cases only: generate_text or
    chat_conversation is called with [undefined] or [null] in the place of
    the arguments; or its one chat-completion call rejects with a value on
    which the catch block itself throws, that is [undefined], [null], or a
    value that is not classified by status and has a truthy message whose
    string conversion throws.  Every other call returns a response. *)
Theorem handler_throws_iff (clients : registry)
  (backend : client -> requestParams -> completion value)
  (number_text : float -> string)
  (name : string) (args : value) :
  (exists e, fst (handleToolCall clients backend number_text name args)
             = Throw e)
  <-> (reads_arguments name /\ nullish args)
      \/ (exists i e,
            calls_of (handleToolCall clients backend number_text name args)
            = [i]
            /\ backend (inv_client i) (inv_params i) = Throw e
            /\ catch_throws e).
Proof.
  destruct (handleToolCall_cases clients backend number_text name args)
    as [[Hname [Hargs [e He]]]
       | [[Hnot [_ [t [Ht _]]]] | [props [c [params [Hobj [_ [_ Hrun]]]]]]]].
  - split; [intros _; left; now split | intros _; exists e; now rewrite He].
  - rewrite Ht. unfold calls_of; simpl.
    split; [intros [e He]; discriminate |].
    intros [[Hname Hargs] | [i [e [H _]]]]; [| discriminate].
    destruct Hnot; contradiction.
  - rewrite Hrun. unfold calls_of; simpl. rewrite after_call_throws. split.
    + intros [e [Hb He]]. right.
      exists (mkInvocation (selected clients props) c params), e. auto.
    + intros [[_ [H | H]] | [i [e [Hi [Hb He]]]]];
        try (subst args; discriminate).
      injection Hi as <-. simpl in Hb. now exists e.
Qed.

(** X2. A run makes at most one chat-completion call, and it makes one
    exactly when the call reaches the invocation step: the arguments are an
    object that passes the input check of a generation tool, some provider
    is available, and the log line converts the selected model to a
    string. *)
Theorem one_call_at_most (clients : registry)
  (backend : client -> requestParams -> completion value)
  (number_text : float -> string)
  (name : string) (args : value) :
  List.length (calls_of (handleToolCall clients backend number_text name args)) <= 1
  /\ (calls_of (handleToolCall clients backend number_text name args) <> []
      <-> exists props, args = VObj props
                        /\ reaches_invocation clients name props).
Proof.
  destruct (handleToolCall_cases clients backend number_text name args)
    as [[Hname [Hargs [e He]]]
       | [[Hnot [Hnone [t [Ht _]]]] | [props [c [params [Hobj [Hr [_ Hrun]]]]]]]].
  - rewrite He. unfold calls_of; simpl. split; [lia |].
    split; [intros H; now elim H |].
    intros [props [Hobj _]]. destruct Hargs; subst args; discriminate.
  - rewrite Ht. unfold calls_of; simpl. split; [lia |].
    split; [intros H; now elim H |].
    intros [props [Hobj Hr]]. elim (Hnone props Hobj Hr).
  - rewrite Hrun. unfold calls_of; simpl. split; [lia |].
    split; [intros _; now exists props | discriminate].
Qed.

Lemma call_from_registry (clients : registry)
  (backend : client -> requestParams -> completion value)
  (number_text : float -> string)
  (name : string) (args : value) (i : invocation) :
  In i (calls_of (handleToolCall clients backend number_text name args)) ->
  exists props,
    args = VObj props /\ reaches_invocation clients name props
    /\ inv_provider i = selected clients props
    /\ In (inv_provider i) (getAvailableProviders clients)
    /\ client_at clients (inv_provider i) = Some (inv_client i)
    /\ calls_of (handleToolCall clients backend number_text name args) = [i].
Proof.
  destruct (handleToolCall_cases clients backend number_text name args)
    as [[Hname [Hargs [e He]]]
       | [[Hnot [Hnone [t [Ht _]]]] | [props [c [params [Hobj [Hr [Hc Hrun]]]]]]]].
  - rewrite He. intros [].
  - rewrite Ht. intros [].
  - rewrite Hrun. unfold calls_of; simpl. intros [<- | []]. simpl.
    exists props.
    split; [exact Hobj |]. split; [exact Hr |]. split; [reflexivity |].
    split; [apply selectProvider_available; exact (proj1 Hr) |].
    split; [exact Hc | reflexivity].
Qed.

(** X3. Every chat-completion call goes to the client that the registry
    holds under the key of an available provider. *)
Theorem call_on_available_client (clients : registry)
  (backend : client -> requestParams -> completion value)
  (number_text : float -> string)
  (name : string) (args : value) (i : invocation) :
  In i (calls_of (handleToolCall clients backend number_text name args)) ->
  In (inv_provider i) (getAvailableProviders clients)
  /\ client_at clients (inv_provider i) = Some (inv_client i).
Proof.
  intros Hin.
  destruct (call_from_registry _ _ _ _ _ _ Hin) as [props [_ [_ [_ [Hav [Hc _]]]]]].
  now split.
Qed.

Lemma call_on_available_client_witness :
  In (mkInvocation "openai" openai_client
        {| model := VStr "gpt-4o-mini";
           messages := VArr [user_message "hi"];
           max_tokens := VNum 1024%float;
           temperature := VNum 0.7%float |})
     (calls_of (handleToolCall hf_and_openai (answering (VStr "hello")) no_number
                  "chat_conversation"
                  (VObj [("messages", VArr [user_message "hi"]);
                         ("provider", VStr "openai")])))
  /\ In "openai" (getAvailableProviders hf_and_openai)
  /\ client_at hf_and_openai "openai" = Some openai_client.
Proof.
  assert (H : In (mkInvocation "openai" openai_client
                    {| model := VStr "gpt-4o-mini";
                       messages := VArr [user_message "hi"];
                       max_tokens := VNum 1024%float;
                       temperature := VNum 0.7%float |})
                 (calls_of (handleToolCall hf_and_openai (answering (VStr "hello")) no_number
                              "chat_conversation"
                              (VObj [("messages", VArr [user_message "hi"]);
                                     ("provider", VStr "openai")]))))
    by (left; reflexivity).
  split; [exact H |].
  exact (call_on_available_client _ _ _ _ _ _ H).
Defined.

Lemma or_else_truthy (a b : value) : truthy b = true -> truthy (or_else a b) = true.
Proof. intros Hb. unfold or_else. destruct (truthy a) eqn:E; assumption. Qed.

Lemma after_call_truthy (number_text : float -> string)
  (name p : string) (outcome : completion value) (r : ToolResponse) :
  after_call number_text name p outcome = Normal r -> truthy (text r) = true.
Proof.
  assert (Hcaught : forall e, caught number_text name p e = Normal r ->
                    truthy (text r) = true).
  { intros e H. destruct (caught_text _ _ _ _ H) as [t ->]. reflexivity. }
  unfold after_call. destruct outcome as [response | e]; [| apply Hcaught].
  destruct (generatedText response) as [t | e] eqn:E; [| apply Hcaught].
  intros H. injection H as <-. simpl.
  unfold generatedText in E.
  destruct (get response "choices") as [choices |]; [| discriminate].
  destruct (get0 choices) as [choice |]; [| discriminate].
  injection E as <-. now apply or_else_truthy.
Qed.

(** X4. The text of a response is never empty: whenever the handler
    returns, its text is a truthy value, also when the backend answers with
    an empty content or fails without a message. *)
Theorem text_never_empty (clients : registry)
  (backend : client -> requestParams -> completion value)
  (number_text : float -> string)
  (name : string) (args v : value) :
  text_of (handleToolCall clients backend number_text name args) = Some v ->
  truthy v = true.
Proof.
  destruct (handleToolCall_cases clients backend number_text name args)
    as [[Hname [Hargs [e He]]]
       | [[Hnot [Hnone [t [Ht [Hne _]]]]] | [props [c [params [_ [_ [_ Hrun]]]]]]]].
  - rewrite He. discriminate.
  - rewrite Ht. unfold text_of; simpl. intros H. injection H as <-. simpl.
    destruct (String.eqb t "") eqn:E; [| reflexivity].
    apply String.eqb_eq in E. contradiction.
  - rewrite Hrun. unfold text_of; simpl.
    destruct (after_call _ _ _ _) as [r |] eqn:E; [| discriminate].
    intros H. injection H as <-. exact (after_call_truthy _ _ _ _ E).
Qed.

Lemma text_never_empty_witness :
  text_of (handleToolCall hf_only (answering (VStr "")) no_number "generate_text"
             (VObj [("prompt", VStr "hi")]))
  = Some (VStr "No response generated")
  /\ truthy (VStr "No response generated") = true.
Proof.
  assert (H : text_of (handleToolCall hf_only (answering (VStr "")) no_number
                         "generate_text" (VObj [("prompt", VStr "hi")]))
              = Some (VStr "No response generated")) by reflexivity.
  split; [exact H |].
  exact (text_never_empty _ _ _ _ _ H).
Defined.

Lemma default_truthy (clients : registry) (p : string) :
  In p (getAvailableProviders clients) -> truthy (getDefaultModel p) = true.
Proof.
  rewrite getAvailableProviders_filter, filter_In. simpl.
  intros [[<- | [<- | [<- | []]]] _]; reflexivity.
Qed.

(** X5. The parameters of a chat-completion call are never falsy: the model,
    [max_tokens] and [temperature] given to the backend are truthy values
    and the messages are a non-empty array, whatever the caller passed. *)
Theorem parameters_never_falsy (clients : registry)
  (backend : client -> requestParams -> completion value)
  (number_text : float -> string)
  (name : string) (args : value) (i : invocation) :
  In i (calls_of (handleToolCall clients backend number_text name args)) ->
  truthy (model (inv_params i)) = true
  /\ truthy (max_tokens (inv_params i)) = true
  /\ truthy (temperature (inv_params i)) = true
  /\ exists m ms, messages (inv_params i) = VArr (m :: ms).
Proof.
  intros Hin.
  destruct (call_from_registry _ _ _ _ _ _ Hin)
    as [props [-> [Hreach [Hsel [Hav [_ Hcalls]]]]]].
  destruct (generation_run backend number_text Hreach)
    as [c [params [_ [Hmodel [Hmsgs [Hmax [Htemp Hrun]]]]]]].
  rewrite Hrun in Hcalls. unfold calls_of in Hcalls; simpl in Hcalls.
  injection Hcalls as <-. simpl in *.
  rewrite Hmodel, Hmax, Htemp, Hmsgs.
  split; [apply or_else_truthy; now apply (default_truthy clients) |].
  split; [now apply or_else_truthy |].
  split; [now apply or_else_truthy |].
  destruct Hreach as [_ [[[-> _] | [-> Hvalid]] _]].
  - now do 2 eexists.
  - exact Hvalid.
Qed.

Lemma parameters_never_falsy_witness :
  In (mkInvocation "huggingface" hf_client
        {| model := VStr "meta-llama/Llama-3.2-3B-Instruct";
           messages := VArr [VObj [("role", VStr "user"); ("content", VStr "hi")]];
           max_tokens := VNum 1024%float;
           temperature := VNum 0.7%float |})
     (calls_of (handleToolCall hf_only (answering (VStr "hello")) no_number
                  "generate_text"
                  (VObj [("prompt", VStr "hi"); ("model", VStr "");
                         ("max_tokens", VNull); ("temperature", VNum 0%float)])))
  /\ truthy (VStr "meta-llama/Llama-3.2-3B-Instruct") = true.
Proof.
  assert (H : In (mkInvocation "huggingface" hf_client
                    {| model := VStr "meta-llama/Llama-3.2-3B-Instruct";
                       messages := VArr [VObj [("role", VStr "user");
                                               ("content", VStr "hi")]];
                       max_tokens := VNum 1024%float;
                       temperature := VNum 0.7%float |})
                 (calls_of (handleToolCall hf_only (answering (VStr "hello")) no_number
                              "generate_text"
                              (VObj [("prompt", VStr "hi"); ("model", VStr "");
                                     ("max_tokens", VNull);
                                     ("temperature", VNum 0%float)]))))
    by (left; reflexivity).
  split; [exact H |].
  exact (proj1 (parameters_never_falsy _ _ _ _ _ _ H)).
Defined.

(** X6. In a call that reaches the invocation step, a truthy [max_tokens]
    or [temperature] is given to the backend as it is, with no check of its
    type or range; chat_conversation gives its [messages] as they are,
    without a look at the elements, and generate_text wraps the prompt in
    one message of role user. *)
Theorem arguments_passed_unchecked (clients : registry)
  (backend : client -> requestParams -> completion value)
  (number_text : float -> string)
  (name : string) (props : list (string * value)) :
  reaches_invocation clients name props ->
  exists i,
    calls_of (handleToolCall clients backend number_text name (VObj props)) = [i]
    /\ (truthy (own props "max_tokens") = true ->
        max_tokens (inv_params i) = own props "max_tokens")
    /\ (truthy (own props "temperature") = true ->
        temperature (inv_params i) = own props "temperature")
    /\ (name = "chat_conversation" ->
        messages (inv_params i) = own props "messages")
    /\ (name = "generate_text" ->
        messages (inv_params i)
        = VArr [VObj [("role", VStr "user"); ("content", own props "prompt")]]).
Proof.
  intros Hreach.
  destruct (generation_run backend number_text Hreach)
    as [c [params [_ [_ [Hmsgs [Hmax [Htemp Hrun]]]]]]].
  exists (mkInvocation (selected clients props) c params).
  rewrite Hrun. unfold calls_of; simpl. rewrite Hmsgs, Hmax, Htemp.
  unfold or_else, sent_messages.
  repeat split; try (intros H; rewrite H; reflexivity).
Qed.

Lemma arguments_passed_unchecked_witness :
  reaches_invocation hf_only "chat_conversation"
    [("messages", VArr [VNum 7%float; VStr "not a message"]);
     ("temperature", VNum 9.5%float); ("max_tokens", VStr "many")]
  /\ map (fun i => (messages (inv_params i), max_tokens (inv_params i),
                    temperature (inv_params i)))
       (calls_of (handleToolCall hf_only (answering (VStr "hello")) no_number
                    "chat_conversation"
                    (VObj [("messages", VArr [VNum 7%float; VStr "not a message"]);
                           ("temperature", VNum 9.5%float);
                           ("max_tokens", VStr "many")])))
     = [(VArr [VNum 7%float; VStr "not a message"], VStr "many",
         VNum 9.5%float)].
Proof.
  assert (H : reaches_invocation hf_only "chat_conversation"
                [("messages", VArr [VNum 7%float; VStr "not a message"]);
                 ("temperature", VNum 9.5%float); ("max_tokens", VStr "many")]).
  { split; [discriminate | split; [| reflexivity]].
    right; split; [reflexivity |]. do 2 eexists. reflexivity. }
  split; [exact H |].
  destruct (arguments_passed_unchecked (answering (VStr "hello")) no_number H)
    as [i [Hcalls [Hmax [Htemp [Hmsgs _]]]]].
  rewrite Hcalls. simpl.
  rewrite (Hmax eq_refl), (Htemp eq_refl), (Hmsgs eq_refl). reflexivity.
Defined.

(** X7. A [provider] argument that is not a string selects nothing: a
    call that reaches the invocation step goes to the first available
    provider. *)
Theorem non_string_provider_ignored (clients : registry)
  (backend : client -> requestParams -> completion value)
  (number_text : float -> string)
  (name : string) (props : list (string * value)) :
  reaches_invocation clients name props ->
  (forall s, own props "provider" <> VStr s) ->
  map (fun i => Some (inv_provider i))
      (calls_of (handleToolCall clients backend number_text name (VObj props)))
  = [hd_error (getAvailableProviders clients)].
Proof.
  intros Hreach Hnot.
  destruct (generation_run backend number_text Hreach)
    as [c [params [_ [_ [_ [_ [_ Hrun]]]]]]].
  rewrite Hrun. unfold calls_of; simpl.
  assert (Hincl : includes (getAvailableProviders clients)
                    (own props "provider") = false).
  { destruct (own props "provider"); try reflexivity. elim (Hnot s). reflexivity. }
  unfold selected. rewrite (selectProvider_first _ _ Hincl).
  destruct Hreach as [Hne _].
  destruct (getAvailableProviders clients); [contradiction | reflexivity].
Qed.

Lemma non_string_provider_ignored_witness :
  reaches_invocation hf_and_openai "generate_text"
    [("prompt", VStr "hi"); ("provider", VArr [VStr "openai"])]
  /\ (forall s, own [("prompt", VStr "hi"); ("provider", VArr [VStr "openai"])]
                    "provider" <> VStr s)
  /\ map (fun i => Some (inv_provider i))
       (calls_of (handleToolCall hf_and_openai (answering (VStr "hello")) no_number
                    "generate_text"
                    (VObj [("prompt", VStr "hi");
                           ("provider", VArr [VStr "openai"])])))
     = [Some "huggingface"].
Proof.
  assert (H : reaches_invocation hf_and_openai "generate_text"
                [("prompt", VStr "hi"); ("provider", VArr [VStr "openai"])]).
  { split; [discriminate | split; [left; split; reflexivity | reflexivity]]. }
  assert (Hn : forall s, own [("prompt", VStr "hi");
                              ("provider", VArr [VStr "openai"])]
                             "provider" <> VStr s)
    by (intros s; discriminate).
  split; [exact H |]. split; [exact Hn |].
  exact (non_string_provider_ignored (answering (VStr "hello")) no_number H
           Hn).
Defined.

(** ** The tool definitions and the dispatcher *)

(** X8. The handler answers 'Unknown tool: <name>' without calling a backend
    exactly for the names that the tool definitions do not advertise. *)
Theorem unknown_tool_iff (clients : registry)
  (backend : client -> requestParams -> completion value)
  (number_text : float -> string)
  (name : string) (args : value) :
  handleToolCall clients backend number_text name args
  = (Normal (mkResponse (VStr ("Unknown tool: " ++ name))), [])
  <-> ~ In name advertised_names.
Proof.
  split.
  - intros Heq.
    destruct (handleToolCall_cases clients backend number_text name args)
      as [[_ [_ [e He]]]
         | [[_ [_ [t [Ht [_ Hpre]]]]] | [props [c [params [_ [_ [_ Hrun]]]]]]]].
    + rewrite He in Heq. discriminate.
    + rewrite Ht in Heq. injection Heq as ->. apply Hpre.
      apply (prefix_app "Unknown tool: ").
    + rewrite Hrun in Heq. discriminate.
  - intros Hnot. unfold handleToolCall.
    destruct (String.eqb name "generate_text") eqn:E1;
      [apply String.eqb_eq in E1; elim Hnot; subst; simpl; tauto |].
    destruct (String.eqb name "list_models") eqn:E2;
      [apply String.eqb_eq in E2; elim Hnot; subst; simpl; tauto |].
    destruct (String.eqb name "chat_conversation") eqn:E3;
      [apply String.eqb_eq in E3; elim Hnot; subst; simpl; tauto |].
    reflexivity.
Qed.

(** X9. The defaults that the tool definitions advertise for [max_tokens]
    and [temperature] are the values the handler gives to the backend, in a
    call that reaches the invocation step, when the caller leaves these
    arguments out. *)
Theorem advertised_defaults_applied (clients : registry)
  (backend : client -> requestParams -> completion value)
  (number_text : float -> string)
  (name : string) (props : list (string * value)) :
  reaches_invocation clients name props ->
  exists i,
    calls_of (handleToolCall clients backend number_text name (VObj props)) = [i]
    /\ (~ In "max_tokens" (map fst props) ->
        max_tokens (inv_params i)
        = get_opt (argument_schema name "max_tokens") "default")
    /\ (~ In "temperature" (map fst props) ->
        temperature (inv_params i)
        = get_opt (argument_schema name "temperature") "default").
Proof.
  intros Hreach.
  destruct (generation_run backend number_text Hreach)
    as [c [params [_ [_ [_ [Hmax [Htemp Hrun]]]]]]].
  exists (mkInvocation (selected clients props) c params).
  rewrite Hrun. unfold calls_of; simpl. rewrite Hmax, Htemp.
  split; [reflexivity |].
  destruct Hreach as [_ [[[-> _] | [-> _]] _]];
    (split; intros H; rewrite (own_missing _ _ H); reflexivity).
Qed.

Lemma advertised_defaults_applied_witness :
  reaches_invocation hf_only "generate_text" [("prompt", VStr "hi")]
  /\ map (fun i => (max_tokens (inv_params i), temperature (inv_params i)))
       (calls_of (handleToolCall hf_only (answering (VStr "hello")) no_number
                    "generate_text" (VObj [("prompt", VStr "hi")])))
     = [(get_opt (argument_schema "generate_text" "max_tokens") "default",
         get_opt (argument_schema "generate_text" "temperature") "default")].
Proof.
  assert (H : reaches_invocation hf_only "generate_text" [("prompt", VStr "hi")]).
  { split; [discriminate | split; [left; split; reflexivity | reflexivity]]. }
  split; [exact H |].
  destruct (advertised_defaults_applied (answering (VStr "hello")) no_number H)
    as [i [Hcalls [Hmax Htemp]]].
  rewrite Hcalls. simpl. rewrite Hmax, Htemp; [reflexivity | |];
    simpl; intros [E | []]; discriminate E.
Defined.

(** X10. The provider names that the tool definitions allow are exactly the
    names with a catalog of models in [MODELS], and exactly the names whose
    default in [getDefaultModel] is a string; that default is a member of
    the catalog.  A name that is not allowed, and is not one of the names
    every object inherits, has neither a catalog nor a default: both
    look-ups give [undefined]. *)
Theorem provider_tables_agree (name p : string) :
  reads_arguments name ->
  let allowed := strings_of (get_opt (argument_schema name "provider") "enum") in
  (In p allowed <->
   exists d ms, getDefaultModel p = VStr d /\ models_at MODELS p = Some ms
                /\ In d ms)
  /\ (~ In p allowed -> inherited_name p = false ->
      getDefaultModel p = VUndefined /\ models_at MODELS p = None).
Proof.
  intros Hname allowed.
  assert (Hallowed : allowed = ["huggingface"; "openai"; "anthropic"])
    by (destruct Hname as [-> | ->]; reflexivity).
  rewrite Hallowed. clear Hallowed allowed. split.
  - split.
    + intros [<- | [<- | [<- | []]]]; do 2 eexists;
        (split; [reflexivity |]); (split; [reflexivity |]); simpl; tauto.
    + intros [d [ms [Hd _]]]. unfold getDefaultModel in Hd. simpl in Hd.
      destruct (String.eqb p "huggingface") eqn:E1;
        [apply String.eqb_eq in E1; subst; simpl; tauto |].
      destruct (String.eqb p "openai") eqn:E2;
        [apply String.eqb_eq in E2; subst; simpl; tauto |].
      destruct (String.eqb p "anthropic") eqn:E3;
        [apply String.eqb_eq in E3; subst; simpl; tauto |].
      discriminate.
  - intros Hnot _. unfold getDefaultModel. simpl.
    destruct (String.eqb p "huggingface") eqn:E1;
      [apply String.eqb_eq in E1; elim Hnot; subst; simpl; tauto |].
    destruct (String.eqb p "openai") eqn:E2;
      [apply String.eqb_eq in E2; elim Hnot; subst; simpl; tauto |].
    destruct (String.eqb p "anthropic") eqn:E3;
      [apply String.eqb_eq in E3; elim Hnot; subst; simpl; tauto |].
    split; reflexivity.
Qed.

Lemma provider_tables_agree_witness :
  reads_arguments "chat_conversation"
  /\ (In "anthropic"
         (strings_of (get_opt (argument_schema "chat_conversation" "provider")
                              "enum"))
      <-> exists d ms, getDefaultModel "anthropic" = VStr d
                       /\ models_at MODELS "anthropic" = Some ms /\ In d ms).
Proof.
  assert (H : reads_arguments "chat_conversation") by (right; reflexivity).
  split; [exact H |].
  exact (proj1 (provider_tables_agree "anthropic" H)).
Defined.

(** X11. An argument that the tool definitions mark as required is checked
    by the handler: when it is missing from the arguments object, the call
    returns a text that starts with 'Error: ' and says what is required, and
    no backend is called. *)
Theorem required_arguments_checked (clients : registry)
  (backend : client -> requestParams -> completion value)
  (number_text : float -> string)
  (name field : string) (props : list (string * value)) :
  In field (required_arguments name) ->
  ~ In field (map fst props) ->
  exists t,
    handleToolCall clients backend number_text name (VObj props)
    = (Normal (mkResponse (VStr t)), [])
    /\ String.prefix "Error: " t = true
    /\ contains t "is required" = true.
Proof.
  intros Hreq Hmissing.
  unfold required_arguments, input_schema in Hreq. simpl in Hreq.
  unfold handleToolCall.
  destruct (String.eqb name "generate_text") eqn:E1.
  { simpl in Hreq. destruct Hreq as [<- | []].
    unfold generate_text; simpl. rewrite (own_missing _ _ Hmissing). simpl.
    eexists. repeat split. }
  destruct (String.eqb name "list_models") eqn:E2; [simpl in Hreq; contradiction |].
  destruct (String.eqb name "chat_conversation") eqn:E3;
    [| simpl in Hreq; contradiction].
  simpl in Hreq. destruct Hreq as [<- | []].
  unfold chat_conversation; simpl. rewrite (own_missing _ _ Hmissing). simpl.
  eexists. repeat split.
Qed.

Lemma required_arguments_checked_witness :
  In "messages" (required_arguments "chat_conversation")
  /\ ~ In "messages" (map fst [("prompt", VStr "hi")])
  /\ exists t,
       handleToolCall hf_only (answering (VStr "hello")) no_number "chat_conversation"
         (VObj [("prompt", VStr "hi")])
       = (Normal (mkResponse (VStr t)), [])
       /\ String.prefix "Error: " t = true
       /\ contains t "is required" = true.
Proof.
  assert (H1 : In "messages" (required_arguments "chat_conversation"))
    by (left; reflexivity).
  assert (H2 : ~ In "messages" (map fst [("prompt", VStr "hi")]))
    by (simpl; intros [E | []]; discriminate E).
  split; [exact H1 |]. split; [exact H2 |].
  exact (required_arguments_checked hf_only (answering (VStr "hello")) no_number
           _ _ _ H1 H2).
Defined.

(** ** Credentials *)

(** X12. A provider is available exactly when its environment variable is
    set to a non-empty string; a variable set to the empty string counts as
    not set. *)
Theorem available_iff_credential (env : environment) (p : string) :
  In p (getAvailableProviders (init_clients env))
  <-> exists key, credential env p = Some key /\ key <> "".
Proof.
  rewrite getAvailableProviders_filter, filter_In.
  unfold credential, client_at, init_clients, env_set; simpl.
  split.
  - intros [[<- | [<- | [<- | []]]] H]; simpl in H |- *.
    + destruct (HF_TOKEN env) as [k |]; [| discriminate].
      destruct (String.eqb k "") eqn:E; [discriminate |].
      exists k. split; [reflexivity |]. intros ->. discriminate.
    + destruct (OPENAI_API_KEY env) as [k |]; [| discriminate].
      destruct (String.eqb k "") eqn:E; [discriminate |].
      exists k. split; [reflexivity |]. intros ->. discriminate.
    + destruct (ANTHROPIC_API_KEY env) as [k |]; [| discriminate].
      destruct (String.eqb k "") eqn:E; [discriminate |].
      exists k. split; [reflexivity |]. intros ->. discriminate.
  - intros [key [Hkey Hne]].
    assert (Hk : String.eqb key "" = false).
    { destruct (String.eqb key "") eqn:E; [| reflexivity].
      apply String.eqb_eq in E. contradiction. }
    destruct (String.eqb p "huggingface") eqn:E1.
    { apply String.eqb_eq in E1. subst p. rewrite Hkey, Hk. simpl. tauto. }
    destruct (String.eqb p "openai") eqn:E2.
    { apply String.eqb_eq in E2. subst p. rewrite Hkey, Hk. simpl. tauto. }
    destruct (String.eqb p "anthropic") eqn:E3.
    { apply String.eqb_eq in E3. subst p. rewrite Hkey, Hk. simpl. tauto. }
    discriminate.
Qed.

Lemma client_of_credential (env : environment) (p : string) (c : client) :
  client_at (init_clients env) p = Some c ->
  credential env p = Some (apiKey c) /\ apiKey c <> ""
  /\ (p = "huggingface" ->
      baseURL c = Some "https://api-inference.huggingface.co/v1")
  /\ (p = "openai" -> baseURL c = None)
  /\ (p = "anthropic" -> baseURL c = Some "https://api.anthropic.com/v1").
Proof.
  unfold client_at, credential, init_clients, env_set; simpl.
  destruct (String.eqb p "huggingface") eqn:E1.
  { apply String.eqb_eq in E1. subst p.
    destruct (HF_TOKEN env) as [k |]; [| discriminate].
    destruct (String.eqb k "") eqn:E; [discriminate |].
    intros H. injection H as <-. simpl.
    repeat split; try discriminate. intros ->. discriminate. }
  destruct (String.eqb p "openai") eqn:E2.
  { apply String.eqb_eq in E2. subst p.
    destruct (OPENAI_API_KEY env) as [k |]; [| discriminate].
    destruct (String.eqb k "") eqn:E; [discriminate |].
    intros H. injection H as <-. simpl.
    repeat split; try discriminate. intros ->. discriminate. }
  destruct (String.eqb p "anthropic") eqn:E3; [| discriminate].
  apply String.eqb_eq in E3. subst p.
  destruct (ANTHROPIC_API_KEY env) as [k |]; [| discriminate].
  destruct (String.eqb k "") eqn:E; [discriminate |].
  intros H. injection H as <-. simpl.
  repeat split; try discriminate. intros ->. discriminate.
Qed.

(** X13. With the registry built from the environment, every
    chat-completion call is made with the credential of the provider it is
    made for, a non-empty string, and on the endpoint of that provider: the
    key of one provider is never sent to another. *)
Theorem call_uses_own_credential (env : environment)
  (backend : client -> requestParams -> completion value)
  (number_text : float -> string)
  (name : string) (args : value) (i : invocation) :
  In i (calls_of (handleToolCall (init_clients env) backend number_text name args)) ->
  credential env (inv_provider i) = Some (apiKey (inv_client i))
  /\ apiKey (inv_client i) <> ""
  /\ (inv_provider i = "huggingface" ->
      baseURL (inv_client i) = Some "https://api-inference.huggingface.co/v1")
  /\ (inv_provider i = "openai" -> baseURL (inv_client i) = None)
  /\ (inv_provider i = "anthropic" ->
      baseURL (inv_client i) = Some "https://api.anthropic.com/v1").
Proof.
  intros Hin.
  destruct (call_from_registry _ _ _ _ _ _ Hin) as [props [_ [_ [_ [_ [Hc _]]]]]].
  exact (client_of_credential _ _ Hc).
Qed.

Lemma call_uses_own_credential_witness :
  In (mkInvocation "anthropic"
        {| baseURL := Some "https://api.anthropic.com/v1";
           apiKey := "sk-ant-secret";
           defaultHeaders := [("anthropic-version", "2023-06-01")] |}
        {| model := VStr "claude-3-5-haiku-20241022";
           messages := VArr [VObj [("role", VStr "user"); ("content", VStr "hi")]];
           max_tokens := VNum 1024%float;
           temperature := VNum 0.7%float |})
     (calls_of (handleToolCall (init_clients two_keys) (answering (VStr "hello")) no_number
                  "generate_text"
                  (VObj [("prompt", VStr "hi"); ("provider", VStr "anthropic")])))
  /\ credential two_keys "anthropic" = Some "sk-ant-secret".
Proof.
  assert (H : In (mkInvocation "anthropic"
                    {| baseURL := Some "https://api.anthropic.com/v1";
                       apiKey := "sk-ant-secret";
                       defaultHeaders := [("anthropic-version", "2023-06-01")] |}
                    {| model := VStr "claude-3-5-haiku-20241022";
                       messages := VArr [VObj [("role", VStr "user");
                                               ("content", VStr "hi")]];
                       max_tokens := VNum 1024%float;
                       temperature := VNum 0.7%float |})
                 (calls_of (handleToolCall (init_clients two_keys)
                              (answering (VStr "hello")) no_number "generate_text"
                              (VObj [("prompt", VStr "hi");
                                     ("provider", VStr "anthropic")]))))
    by (left; reflexivity).
  split; [exact H |].
  exact (proj1 (call_uses_own_credential _ _ _ _ _ _ H)).
Defined.

(** ** More on failures *)

(** X14. Only a numeric status read at [error.response.status] is
    classified.  In a call that reaches the invocation step and whose
    backend rejects with a value other than [undefined] and [null], when
    the status there is missing or is not a number (the string '401', or an
    error without a [response]), the failure is never reported as an
    authentication or rate-limit failure: the text is 'Error: ' followed by
    the message of the error when that is a non-empty string, and by the
    fallback of the tool when the message is falsy. *)
Theorem status_must_be_number (clients : registry)
  (backend : client -> requestParams -> completion value)
  (number_text : float -> string)
  (name : string) (props : list (string * value)) (e : value) :
  reaches_invocation clients name props ->
  (forall c params, backend c params = Throw e) ->
  e <> VUndefined -> e <> VNull ->
  (forall x, status_of e <> VNum x) ->
  (forall m, get_opt e "message" = VStr m -> m <> "" ->
     text_of (handleToolCall clients backend number_text name (VObj props))
     = Some (VStr ("Error: " ++ m)))
  /\ (truthy (get_opt e "message") = false ->
      text_of (handleToolCall clients backend number_text name (VObj props))
      = Some (VStr ("Error: " ++ fallback_of name))).
Proof.
  intros Hreach Hthrow Hu Hn Hstatus.
  destruct (generation_run backend number_text Hreach)
    as [c [params [_ [_ [_ [_ [_ Hrun]]]]]]].
  rewrite Hrun, Hthrow. unfold text_of, after_call; simpl.
  assert (Hno : forall n, is_number (status_of e) n = false).
  { intros n. destruct (status_of e) eqn:E; try reflexivity.
    elim (Hstatus x). reflexivity. }
  destruct (caught_by_status number_text name (selected clients props) Hu Hn)
    as [_ [_ Hother]].
  destruct (Hother (Hno _) (Hno _)) as [Hmsg Hfall]. split.
  - intros m Hm Hne. rewrite (Hmsg m Hm Hne). reflexivity.
  - intros Hf. rewrite (Hfall Hf). reflexivity.
Qed.

Lemma status_must_be_number_witness :
  reaches_invocation hf_only "generate_text" [("prompt", VStr "hi")]
  /\ text_of (handleToolCall hf_only
                (failing (VObj [("response", VObj [("status", VStr "401")]);
                                ("message", VStr "401 Unauthorized")]))
                no_number "generate_text" (VObj [("prompt", VStr "hi")]))
     = Some (VStr "Error: 401 Unauthorized").
Proof.
  assert (H : reaches_invocation hf_only "generate_text" [("prompt", VStr "hi")]).
  { split; [discriminate | split; [left; split; reflexivity | reflexivity]]. }
  split; [exact H |].
  apply (proj1 (@status_must_be_number hf_only
           (failing (VObj [("response", VObj [("status", VStr "401")]);
                           ("message", VStr "401 Unauthorized")]))
           no_number "generate_text" [("prompt", VStr "hi")]
           (VObj [("response", VObj [("status", VStr "401")]);
                  ("message", VStr "401 Unauthorized")]) H
           (fun _ _ => eq_refl)
           ltac:(discriminate) ltac:(discriminate)
           ltac:(intros x; discriminate))
         "401 Unauthorized" eq_refl ltac:(discriminate)).
Defined.

(** X15. In a call that reaches the invocation step, a response without
    [choices] is not answered with the placeholder: reading [choices[0]]
    throws inside the [try], and the call returns, after its one backend
    call, a text that starts with 'Error: '. *)
Theorem response_without_choices_is_error (clients : registry)
  (backend : client -> requestParams -> completion value)
  (number_text : float -> string)
  (name : string) (props : list (string * value)) (response : value) :
  reaches_invocation clients name props ->
  (forall c params, backend c params = Normal response) ->
  nullish response \/ nullish (get_opt response "choices") ->
  exists t i,
    handleToolCall clients backend number_text name (VObj props)
    = (Normal (mkResponse (VStr t)), [i])
    /\ String.prefix "Error: " t = true
    /\ VStr t <> VStr "No response generated".
Proof.
  intros Hreach Hresp Hnone.
  destruct (generation_run backend number_text Hreach)
    as [c [params [_ [_ [_ [_ [_ Hrun]]]]]]].
  rewrite Hrun, Hresp.
  assert (Hthrow : exists e, generatedText response = Throw e).
  { unfold generatedText.
    destruct Hnone as [[-> | ->] | Hch]; try (eexists; reflexivity).
    destruct response as [| | b | x | s | items | ps]; simpl in *;
      try (eexists; reflexivity).
    destruct Hch as [-> | ->]; eexists; reflexivity. }
  destruct Hthrow as [e He]. unfold after_call. rewrite He.
  destruct (generatedText_throws _ He) as [msg [-> Hne]].
  rewrite (caught_type_error number_text name _ Hne).
  do 2 eexists. split; [reflexivity |].
  split; [apply (prefix_app "Error: ") | discriminate].
Qed.

Lemma response_without_choices_is_error_witness :
  reaches_invocation hf_only "generate_text" [("prompt", VStr "hi")]
  /\ exists t i,
       handleToolCall hf_only (fun _ _ => Normal (VObj [("id", VStr "x")])) no_number
         "generate_text" (VObj [("prompt", VStr "hi")])
       = (Normal (mkResponse (VStr t)), [i])
       /\ String.prefix "Error: " t = true
       /\ VStr t <> VStr "No response generated".
Proof.
  assert (H : reaches_invocation hf_only "generate_text" [("prompt", VStr "hi")]).
  { split; [discriminate | split; [left; split; reflexivity | reflexivity]]. }
  split; [exact H |].
  apply (@response_without_choices_is_error hf_only
           (fun _ _ => Normal (VObj [("id", VStr "x")])) no_number
           "generate_text" [("prompt", VStr "hi")] (VObj [("id", VStr "x")]) H).
  - intros c params. reflexivity.
  - right. left. reflexivity.
Defined.

(** X16. The answer of list_models depends on nothing but which providers
    are available: not on the arguments (which may be missing), not on the
    backends, and not on the credentials or endpoints of the clients. *)
Theorem list_models_depends_on_availability (clients clients' : registry)
  (backend backend' : client -> requestParams -> completion value)
  (number_text number_text' : float -> string)
  (args args' : value) :
  getAvailableProviders clients = getAvailableProviders clients' ->
  handleToolCall clients backend number_text "list_models" args
  = handleToolCall clients' backend' number_text' "list_models" args'.
Proof.
  intros H. unfold handleToolCall, list_models; simpl. rewrite H. reflexivity.
Qed.

Lemma list_models_depends_on_availability_witness :
  getAvailableProviders hf_only
  = getAvailableProviders (init_clients {| HF_TOKEN := Some "other";
                                           OPENAI_API_KEY := Some "";
                                           ANTHROPIC_API_KEY := None |})
  /\ handleToolCall hf_only (answering (VStr "hello")) no_number "list_models" VUndefined
     = handleToolCall (init_clients {| HF_TOKEN := Some "other";
                                       OPENAI_API_KEY := Some "";
                                       ANTHROPIC_API_KEY := None |})
         (failing (http_error 401%float "no")) no_number "list_models"
         (VObj [("provider", VStr "openai")]).
Proof.
  assert (H : getAvailableProviders hf_only
              = getAvailableProviders
                  (init_clients {| HF_TOKEN := Some "other";
                                   OPENAI_API_KEY := Some "";
                                   ANTHROPIC_API_KEY := None |}))
    by reflexivity.
  split; [exact H |].
  exact (@list_models_depends_on_availability _ _ (answering (VStr "hello"))
           (failing (http_error 401%float "no")) no_number no_number VUndefined
           (VObj [("provider", VStr "openai")]) H).
Defined.

(** ** More on arguments and content *)

(** X17. Arguments that are neither an object nor [undefined] nor [null]
    (a number, a string, an array, a boolean) are read as having no
    properties: generate_text and chat_conversation answer with their
    'is required' text and call no backend. *)
Theorem non_object_arguments_rejected (clients : registry)
  (backend : client -> requestParams -> completion value)
  (number_text : float -> string)
  (name : string) (args : value) :
  reads_arguments name ->
  ~ nullish args ->
  (forall props, args <> VObj props) ->
  exists t,
    handleToolCall clients backend number_text name args
    = (Normal (mkResponse (VStr t)), [])
    /\ String.prefix "Error: " t = true
    /\ contains t "is required" = true.
Proof.
  intros Hname Hnull Hobj.
  destruct Hname as [-> | ->];
    destruct args as [| | b | x | s | items | props];
    try (elim Hnull; (now left) || (now right));
    try (elim (Hobj props); reflexivity);
    eexists; repeat split.
Qed.

Lemma non_object_arguments_rejected_witness :
  reads_arguments "generate_text"
  /\ ~ nullish (VArr [VStr "hi"])
  /\ exists t,
       handleToolCall hf_only (answering (VStr "hello")) no_number "generate_text"
         (VArr [VStr "hi"])
       = (Normal (mkResponse (VStr t)), [])
       /\ String.prefix "Error: " t = true
       /\ contains t "is required" = true.
Proof.
  assert (H1 : reads_arguments "generate_text") by (left; reflexivity).
  assert (H2 : ~ nullish (VArr [VStr "hi"]))
    by (intros [E | E]; discriminate E).
  assert (H3 : forall props, VArr [VStr "hi"] <> VObj props)
    by (intros props; discriminate).
  split; [exact H1 |]. split; [exact H2 |].
  exact (non_object_arguments_rejected hf_only (answering (VStr "hello"))
           no_number H1 H2 H3).
Defined.

(** X18. In a call that reaches the invocation step, any truthy content of
    the first choice becomes the text of the response as it is, a string or
    not: the handler does not convert it. *)
Theorem content_passed_as_is (clients : registry)
  (backend : client -> requestParams -> completion value)
  (number_text : float -> string)
  (name : string) (props : list (string * value)) (response content : value) :
  reaches_invocation clients name props ->
  (forall c params, backend c params = Normal response) ->
  content_is response content ->
  truthy content = true ->
  text_of (handleToolCall clients backend number_text name (VObj props)) = Some content.
Proof.
  intros Hreach Hresp [choices [choice [H1 [H2 H3]]]] Htruthy.
  destruct (generation_run backend number_text Hreach)
    as [c [params [_ [_ [_ [_ [_ Hrun]]]]]]].
  rewrite Hrun, Hresp. unfold text_of, after_call, generatedText; simpl.
  rewrite H1, H2, H3. unfold or_else. rewrite Htruthy. reflexivity.
Qed.

Lemma content_passed_as_is_witness :
  reaches_invocation hf_only "generate_text" [("prompt", VStr "hi")]
  /\ text_of (handleToolCall hf_only
                (answering (VArr [VObj [("type", VStr "text");
                                        ("text", VStr "hello")]])) no_number
                "generate_text" (VObj [("prompt", VStr "hi")]))
     = Some (VArr [VObj [("type", VStr "text"); ("text", VStr "hello")]]).
Proof.
  assert (H : reaches_invocation hf_only "generate_text" [("prompt", VStr "hi")]).
  { split; [discriminate | split; [left; split; reflexivity | reflexivity]]. }
  split; [exact H |].
  apply (@content_passed_as_is hf_only
           (answering (VArr [VObj [("type", VStr "text"); ("text", VStr "hello")]]))
           no_number "generate_text" [("prompt", VStr "hi")]
           (response_with
              (choice_with (VArr [VObj [("type", VStr "text");
                                        ("text", VStr "hello")]])))
           (VArr [VObj [("type", VStr "text"); ("text", VStr "hello")]]) H).
  - intros c params. reflexivity.
  - apply content_of_response.
  - reflexivity.
Defined.
